(** * terraform_parser.py: extraction, token resolution and the
      plan / apply / destroy driver

    A shallow embedding of [src/antlr/program/terraform_parser.py].
    The listener's dictionaries are finite maps, Python exceptions are an
    error result, and everything the script does to the outside world
    (console, HTTP API, files, subprocesses, sleeping) is recorded in an
    explicit world state that is threaded through the calls. *)

From Stdlib Require Import Ascii String ZArith Lia.
From stdpp Require Import base option list strings pretty gmap fin_maps.

Set Warnings "-register-all".
Local Open Scope Z_scope.

(** ** Python string operations used by the script *)

Module PyStr.

(** The double-quote character, the argument of every [strip] call. *)
Definition dquote : ascii := Ascii.ascii_of_nat 34.
Definition dot : ascii := "."%char.

(** [s.lstrip(c)] for a one-character set. *)
Fixpoint lstrip (c : ascii) (s : string) : string :=
  match s with
  | EmptyString => EmptyString
  | String a s' => if Ascii.eqb a c then lstrip c s' else s
  end.

(** [s.rstrip(c)] for a one-character set. *)
Fixpoint rstrip (c : ascii) (s : string) : string :=
  match s with
  | EmptyString => EmptyString
  | String a s' =>
      match rstrip c s' with
      | EmptyString => if Ascii.eqb a c then EmptyString else String a EmptyString
      | r => String a r
      end
  end.

(** [s.strip(c)]: every leading and every trailing [c] is removed. *)
Definition strip (c : ascii) (s : string) : string := rstrip c (lstrip c s).

(** [s.startswith(p)]. *)
Fixpoint startswith (p s : string) : bool :=
  match p, s with
  | EmptyString, _ => true
  | String a p', String b s' => Ascii.eqb a b && startswith p' s'
  | String _ _, EmptyString => false
  end.

(** [s.split(c)] with an explicit one-character separator: the result
    always has at least one field, and empty fields are kept. *)
Fixpoint split (c : ascii) (s : string) : list string :=
  match s with
  | EmptyString => [EmptyString]
  | String a s' =>
      if Ascii.eqb a c then EmptyString :: split c s'
      else match split c s' with
           | h :: t => String a h :: t
           | [] => [String a EmptyString]
           end
  end.

(** [c in s]. *)
Fixpoint contains (c : ascii) (s : string) : bool :=
  match s with
  | EmptyString => false
  | String a s' => Ascii.eqb a c || contains c s'
  end.

(** [c * n]. *)
Fixpoint repeat (c : ascii) (n : nat) : string :=
  match n with
  | O => EmptyString
  | S n' => String c (repeat c n')
  end.

(** First and last character, when there is one. *)
Definition first (s : string) : option ascii :=
  match s with
  | EmptyString => None
  | String a _ => Some a
  end.

Fixpoint last (s : string) : option ascii :=
  match s with
  | EmptyString => None
  | String a EmptyString => Some a
  | String _ s' => last s'
  end.

(** The part of [s] before its first [c]; all of [s] when it has none. *)
Fixpoint before (c : ascii) (s : string) : string :=
  match s with
  | EmptyString => EmptyString
  | String a s' => if Ascii.eqb a c then EmptyString else String a (before c s')
  end.

(** The text of a [STRING] token whose value is [s]. *)
Definition quoted (s : string) : string :=
  String dquote (s +:+ String dquote EmptyString).

(** Truthiness of a string: [not s] holds exactly for the empty string. *)
Definition truthy (s : string) : bool :=
  match s with
  | EmptyString => false
  | String _ _ => true
  end.

End PyStr.

(** ** Values, exceptions and results *)

(** A value decoded from JSON ([response.json()], [json.load]).  Numbers
    are integers, as the identifiers of the remote API are; an object keeps
    its members in document order. *)
Inductive json : Type :=
| JNull
| JBool (b : bool)
| JNum (z : Z)
| JStr (s : string)
| JArr (items : list json)
| JObj (members : list (string * json)).

(** The exceptions that can reach the handler of [main].  The first four are
    the [Exception(...)] values the script raises itself; the others come
    from subscripting, iteration, [requests] and [json]. *)
Inductive exn : Type :=
| UnsupportedProvider
| NoToken
| UndefinedVariable (name : string)
| MissingResource
| KeyError (key : string)
| TypeError
| IndexError
| RequestException
| HTTPError (status : Z)
| JSONDecodeError
| FileNotFoundError
| OSError.

(** The text of the exceptions raised by the script itself. *)
Definition exn_text (e : exn) : option string :=
  match e with
  | UnsupportedProvider => Some "Only 'digitalocean' provider is supported."
  | NoToken => Some "No token specified in provider block."
  | UndefinedVariable name =>
      Some ("Undefined variable '" +:+ name +:+ "' used in provider block.")
  | MissingResource => Some "Missing digitalocean_droplet resource."
  | _ => None
  end.

Inductive result (A : Type) : Type :=
| Ok (a : A)
| Raise (e : exn).
Arguments Ok {A} a.
Arguments Raise {A} e.

(** ** The parse tree handed to the listener

    The grammar and the generated parser are not part of the script; the
    listener only reads the text of a block's [STRING] tokens and, for each
    [keyValue] of its body, the text of the [IDENTIFIER] and of the [expr]. *)
Record keyValue : Type := KeyValue {
  kv_key : string;   (* kv.IDENTIFIER().getText() *)
  kv_expr : string   (* kv.expr().getText() *)
}.

Inductive block : Type :=
| BVariable (name : string) (body : list keyValue)
| BProvider (name : string) (body : list keyValue)
| BResource (type_ name : string) (body : list keyValue).

(** ** TerraformApplyListener *)

Record listener : Type := Listener {
  variables : gmap string string;
  provider_token_expr : option string;
  droplet_config : gmap string string;
  droplet_id : option json;
  droplet_ip : option json
}.

(** [TerraformApplyListener.__init__] *)
Definition new_listener : listener :=
  Listener ∅ None ∅ None None.

Definition set_variable (k v : string) (self : listener) : listener :=
  Listener (<[k := v]> (variables self)) (provider_token_expr self)
           (droplet_config self) (droplet_id self) (droplet_ip self).

Definition set_token_expr (e : string) (self : listener) : listener :=
  Listener (variables self) (Some e)
           (droplet_config self) (droplet_id self) (droplet_ip self).

Definition set_config (k v : string) (self : listener) : listener :=
  Listener (variables self) (provider_token_expr self)
           (<[k := v]> (droplet_config self)) (droplet_id self) (droplet_ip self).

Definition set_droplet (id ip : json) (self : listener) : listener :=
  Listener (variables self) (provider_token_expr self)
           (droplet_config self) (Some id) (Some ip).

Definition enterVariable (name : string) (body : list keyValue)
    (self : listener) : listener :=
  let var_name := PyStr.strip PyStr.dquote name in
  foldl (fun self kv =>
           if String.eqb (kv_key kv) "default"
           then set_variable var_name (PyStr.strip PyStr.dquote (kv_expr kv)) self
           else self)
        self body.

Definition enterProvider (name : string) (body : list keyValue)
    (self : listener) : result listener :=
  let provider_name := PyStr.strip PyStr.dquote name in
  if negb (String.eqb provider_name "digitalocean") then Raise UnsupportedProvider
  else
    Ok (foldl (fun self kv =>
                 if String.eqb (kv_key kv) "token"
                 then set_token_expr (kv_expr kv) self
                 else self)
              self body).

Definition enterResource (type_ name : string) (body : list keyValue)
    (self : listener) : listener :=
  let type_ := PyStr.strip PyStr.dquote type_ in
  let name := PyStr.strip PyStr.dquote name in
  if negb (String.eqb type_ "digitalocean_droplet") then self
  else
    foldl (fun self kv =>
             set_config (kv_key kv) (PyStr.strip PyStr.dquote (kv_expr kv)) self)
          self body.

(** What the tree walker does on entering one block. *)
Definition enter (b : block) (self : listener) : result listener :=
  match b with
  | BVariable name body => Ok (enterVariable name body self)
  | BProvider name body => enterProvider name body self
  | BResource type_ name body => Ok (enterResource type_ name body self)
  end.

(** [ParseTreeWalker().walk(listener, tree)]: the blocks are entered in
    document order; an exception raised by a callback ends the walk. *)
Fixpoint walk (doc : list block) (self : listener) : result listener :=
  match doc with
  | [] => Ok self
  | b :: rest =>
      match enter b self with
      | Ok self' => walk rest self'
      | Raise e => Raise e
      end
  end.

Definition resolve_token (self : listener) : result string :=
  match provider_token_expr self with
  | None => Raise NoToken
  | Some expr =>
      if negb (PyStr.truthy expr) then Raise NoToken
      else if PyStr.startswith "var." expr then
        match PyStr.split PyStr.dot expr !! 1%nat with
        | None => Raise IndexError
        | Some var_name =>
            match variables self !! var_name with
            | Some v => Ok v
            | None => Raise (UndefinedVariable var_name)
            end
        end
      else Ok (PyStr.strip PyStr.dquote expr)
  end.

(** ** The outside world *)

(** What a file or an HTTP body holds: a JSON document, or text that
    [json.load] / [response.json()] rejects. *)
Inductive content : Type :=
| Doc (j : json)
| Garbage.

(** The lines the script prints, one constructor per [print] call. *)
Inductive message : Type :=
| MsgCreating
| MsgCreated (id : json)
| MsgWaiting
| MsgDeleting (id : json)
| MsgDeleted (id : json)
| MsgDeleteFailed (id : json) (status : Z)
| MsgStateSaved (filename : string)
| MsgStateSaveFailed
| MsgInfoSaved (filename : string)
| MsgInfoSaveFailed
| MsgRunning (cmd : list string)
| MsgCmdCompleted (name : string)
| MsgCmdFailed (name : string)
| MsgCmdError (cmd : list string)
| MsgText (s : string)
| MsgAvailable (ip : json)
| MsgDropletId (id : json)
| MsgEcosystem
| MsgCleaned (file : string)
| MsgNoDropletInfo
| MsgPlanHeader
| MsgPlanConfig (config : gmap string string)
| MsgError (e : exn).

(** Everything observable a run does, in program order. *)
Inductive event : Type :=
| Print (m : message)
| HttpPost (token : string) (payload : json)
| HttpGet (token : string) (id : json)
| HttpDelete (token : string) (id : json)
| Sleep (seconds : Z)
| FileWrite (filename : string) (doc : json)
| FileRemove (filename : string)
| Subprocess (cmd : list string).

(** The calls to the remote API among the events of a run. *)
Definition is_api_call (e : event) : bool :=
  match e with
  | HttpPost _ _ | HttpGet _ _ | HttpDelete _ _ => true
  | _ => false
  end.

Definition api_calls (t : list event) : list event :=
  List.filter is_api_call t.

Record world : Type := World {
  files : gmap string content;   (* the working directory *)
  trace : list event             (* oldest event first *)
}.

(** The answer to one HTTP request: [requests] raises, or there is a
    response with a status code and a body. *)
Inductive http_result : Type :=
| HttpRaise
| HttpResponse (status_code : Z) (body : content).

(** The answer to one [subprocess.run]: it raises (command missing, timeout)
    or completes with a return code, stdout and stderr. *)
Inductive subprocess_result : Type :=
| SubRaise
| SubCompleted (returncode : Z) (stdout stderr : string).

(** What the environment answers during one run of the script. *)
Record env : Type := Env {
  api_post : http_result;
  api_get : nat -> http_result;          (* the answer to the i-th poll *)
  api_delete : http_result;
  can_write : string -> bool;            (* does [open(filename, 'w')] succeed *)
  strftime : string;                     (* time.strftime('%Y-%m-%dT%H:%M:%SZ') *)
  subprocess_run : list string -> subprocess_result;
  can_remove : string -> bool            (* does [os.remove(filename)] succeed *)
}.

(** ** A state and exception monad over the world

    [Hang] is the third outcome beside returning and raising: the polling
    loop did not finish within the fuel it was given. *)
Inductive run (A : Type) : Type :=
| Ret (a : A)
| Exc (e : exn)
| Hang.
Arguments Ret {A} a.
Arguments Exc {A} e.
Arguments Hang {A}.

Definition M (A : Type) : Type := world -> run A * world.

Definition ret {A} (a : A) : M A := fun w => (Ret a, w).

Definition bind {A B} (m : M A) (k : A -> M B) : M B :=
  fun w =>
    match m w with
    | (Ret a, w') => k a w'
    | (Exc e, w') => (Exc e, w')
    | (Hang, w') => (Hang, w')
    end.

Definition raise {A} (e : exn) : M A := fun w => (Exc e, w).

Definition hang {A} : M A := fun w => (Hang, w).

Definition lift {A} (r : result A) : M A :=
  match r with
  | Ok a => ret a
  | Raise e => raise e
  end.

Declare Scope py_scope.
Delimit Scope py_scope with py.
Notation "x <- m ;; k" := (bind m (fun x => k))
  (at level 100, m at next level, right associativity) : py_scope.
Notation "m ;; k" := (bind m (fun _ => k))
  (at level 100, right associativity) : py_scope.

Definition emit (e : event) : M unit :=
  fun w => (Ret tt, World (files w) (trace w ++ [e])).

Definition print (m : message) : M unit := emit (Print m).

(** ** Subscripting and iterating decoded JSON *)

(** [d[key]] on a [dict] built by the JSON decoder, which keeps the last
    of several members with the same name. *)
Fixpoint members_lookup (key : string) (members : list (string * json))
    : option json :=
  match members with
  | [] => None
  | (k, v) :: rest =>
      match members_lookup key rest with
      | Some v' => Some v'
      | None => if String.eqb k key then Some v else None
      end
  end.

(** [j[key]] with a string key: a missing member is a [KeyError], a value
    that is not a [dict] gives a [TypeError]. *)
Definition getitem (j : json) (key : string) : result json :=
  match j with
  | JObj members =>
      match members_lookup key members with
      | Some v => Ok v
      | None => Raise (KeyError key)
      end
  | _ => Raise TypeError
  end.

(** [config[key]] on the listener's [droplet_config]. *)
Definition config_get (config : gmap string string) (key : string)
    : result string :=
  match config !! key with
  | Some v => Ok v
  | None => Raise (KeyError key)
  end.

Fixpoint chars (s : string) : list json :=
  match s with
  | EmptyString => []
  | String a s' => JStr (String a EmptyString) :: chars s'
  end.

(** [for n in j]: a list yields its items, a [dict] its keys, a string its
    characters; nothing else is iterable.  (The keys of an object are listed
    once per member: each is a string, and the loop body raises on the first
    string it subscripts.) *)
Definition iterate (j : json) : result (list json) :=
  match j with
  | JArr items => Ok items
  | JObj members => Ok (List.map (fun kv => JStr (fst kv)) members)
  | JStr s => Ok (chars s)
  | _ => Raise TypeError
  end.

(** [j == "public"] *)
Definition is_public (j : json) : bool :=
  match j with
  | JStr s => String.eqb s "public"
  | _ => false
  end.

(** [[n["ip_address"] for n in networks if n["type"] == "public"]] over the
    items of [networks], left to right. *)
Fixpoint public_ips_of (items : list json) : result (list json) :=
  match items with
  | [] => Ok []
  | n :: rest =>
      match getitem n "type" with
      | Raise e => Raise e
      | Ok t =>
          if is_public t then
            match getitem n "ip_address" with
            | Raise e => Raise e
            | Ok ip =>
                match public_ips_of rest with
                | Ok ips => Ok (ip :: ips)
                | Raise e => Raise e
                end
            end
          else public_ips_of rest
      end
  end.

Definition public_ips (networks : json) : result (list json) :=
  match iterate networks with
  | Ok items => public_ips_of items
  | Raise e => Raise e
  end.

(** ** The functions of the script *)

Local Open Scope py_scope.

Inductive action : Type := Apply | Destroy | Plan.

(** How a run of [main] ends: the process exits with a code, or the run is
    still polling when the fuel is spent. *)
Inductive exit : Type :=
| Exit (code : Z)
| StillPolling.

Definition raise_for_status (status_code : Z) : result unit :=
  if (400 <=? status_code) && (status_code <? 600)
  then Raise (HTTPError status_code) else Ok tt.

(** [response.json()] *)
Definition response_json (body : content) : result json :=
  match body with
  | Doc j => Ok j
  | Garbage => Raise JSONDecodeError
  end.

(** [os.path.exists(filename)] *)
Definition path_exists (filename : string) : M bool :=
  fun w => (Ret (bool_decide (is_Some (files w !! filename))), w).

(** [os.remove(filename)]: the file is removed, or the call raises
    (the directory is read-only, the path is a directory) and nothing
    changes. *)
Definition remove (E : env) (filename : string) : M unit :=
  fun w =>
    if can_remove E filename
    then (Ret tt, World (delete filename (files w))
                        (trace w ++ [FileRemove filename]))
    else (Exc OSError, w).

(** [with open(filename, 'r') as f: json.load(f)] *)
Definition json_load (filename : string) : M json :=
  fun w =>
    match files w !! filename with
    | Some (Doc j) => (Ret j, w)
    | Some Garbage => (Exc JSONDecodeError, w)
    | None => (Exc FileNotFoundError, w)
    end.

(** [with open(filename, 'w') as f: json.dump(doc, f, indent=2)] inside the
    [try] of the two save functions: [true] when the document was written,
    [false] when opening the file raised. *)
Definition json_dump (E : env) (filename : string) (doc : json) : M bool :=
  fun w =>
    if can_write E filename
    then (Ret true, World (<[filename := Doc doc]> (files w))
                          (trace w ++ [FileWrite filename doc]))
    else (Ret false, w).

Section Script.

(** Python's built-in [str] on a decoded JSON value; the script applies it
    to the droplet id when it fills in the state snapshot. *)
Variable py_str : json -> string.

Variable E : env.

(** The [while True] loop of [create_droplet], entered for the [i]-th
    time with [fuel] further iterations allowed. *)
Fixpoint poll (fuel : nat) (i : nat) (api_token : string) (droplet_id : json)
    : M (json * json) :=
  match fuel with
  | O => hang
  | S fuel' =>
      emit (HttpGet api_token droplet_id) ;;
      match api_get E i with
      | HttpRaise => raise RequestException
      | HttpResponse _ body =>
          j <- lift (response_json body) ;;
          droplet_info <- lift (getitem j "droplet") ;;
          nets <- lift (getitem droplet_info "networks") ;;
          networks <- lift (getitem nets "v4") ;;
          ips <- lift (public_ips networks) ;;
          match ips with
          | ip :: _ => ret (droplet_id, ip)
          | [] => emit (Sleep 5) ;; poll fuel' (S i) api_token droplet_id
          end
      end
  end.

Definition create_droplet (fuel : nat) (api_token : string)
    (config : gmap string string) : M (json * json) :=
  name <- lift (config_get config "name") ;;
  region <- lift (config_get config "region") ;;
  size <- lift (config_get config "size") ;;
  image <- lift (config_get config "image") ;;
  let payload :=
    JObj [("name", JStr name); ("region", JStr region);
          ("size", JStr size); ("image", JStr image);
          ("ssh_keys", JArr []); ("backups", JBool false);
          ("ipv6", JBool false); ("user_data", JNull);
          ("private_networking", JNull); ("volumes", JNull);
          ("tags", JArr [])] in
  print MsgCreating ;;
  emit (HttpPost api_token payload) ;;
  match api_post E with
  | HttpRaise => raise RequestException
  | HttpResponse status_code body =>
      lift (raise_for_status status_code) ;;
      j <- lift (response_json body) ;;
      droplet <- lift (getitem j "droplet") ;;
      droplet_id <- lift (getitem droplet "id") ;;
      print (MsgCreated droplet_id) ;;
      print MsgWaiting ;;
      poll fuel 0 api_token droplet_id
  end.

Definition delete_droplet_api (api_token : string) (droplet_id : json)
    : M bool :=
  print (MsgDeleting droplet_id) ;;
  emit (HttpDelete api_token droplet_id) ;;
  match api_delete E with
  | HttpRaise => raise RequestException
  | HttpResponse status_code _ =>
      if status_code =? 204
      then print (MsgDeleted droplet_id) ;; ret true
      else print (MsgDeleteFailed droplet_id status_code) ;; ret false
  end.

(** [droplet_info.get(key, default)] *)
Definition get_default (droplet_info : json) (key : string) (default : json)
    : json :=
  match getitem droplet_info key with
  | Ok v => v
  | Raise _ => default
  end.

Definition save_statefile (droplet_info : json) : M bool :=
  let filename := "terraform.tfstate" in
  id <- lift (getitem droplet_info "id") ;;
  name <- lift (getitem droplet_info "name") ;;
  region <- lift (getitem droplet_info "region") ;;
  size <- lift (getitem droplet_info "size") ;;
  image <- lift (getitem droplet_info "image") ;;
  ip <- lift (getitem droplet_info "ip") ;;
  let statefile_content :=
    JObj [("version", JNum 4);
          ("terraform_version", JStr "1.0.0");
          ("serial", JNum 1);
          ("lineage", JStr "terraform-parser-generated");
          ("outputs", JObj []);
          ("resources", JArr [
             JObj [("mode", JStr "managed");
                   ("type", JStr "digitalocean_droplet");
                   ("name", JStr "example");
                   ("provider", JStr ("provider[" +:+ String PyStr.dquote
                      ("registry.terraform.io/digitalocean/digitalocean"
                       +:+ String PyStr.dquote "]")));
                   ("instances", JArr [
                      JObj [("schema_version", JNum 1);
                            ("attributes", JObj [
                               ("id", JStr (py_str id));
                               ("name", name);
                               ("region", region);
                               ("size", size);
                               ("image", image);
                               ("ipv4_address", ip);
                               ("status", JStr "active");
                               ("created_at",
                                get_default droplet_info "created_at" (JStr ""));
                               ("tags",
                                get_default droplet_info "tags" (JArr []))])]])]])] in
  ok <- json_dump E filename statefile_content ;;
  if ok : bool then print (MsgStateSaved filename) ;; ret true
  else print MsgStateSaveFailed ;; ret false.

Definition save_droplet_info_json (droplet_info : json) : M bool :=
  let filename := "droplet_info.json" in
  ok <- json_dump E filename droplet_info ;;
  if ok : bool then print (MsgInfoSaved filename) ;; ret true
  else print MsgInfoSaveFailed ;; ret false.

(** The [for cmd in commands] loop of [run_terraform_commands]. *)
Fixpoint run_commands (commands : list (list string)) : M bool :=
  match commands with
  | [] => ret true
  | cmd :: rest =>
      print (MsgRunning cmd) ;;
      emit (Subprocess cmd) ;;
      match subprocess_run E cmd with
      | SubRaise => print (MsgCmdError cmd) ;; ret false
      | SubCompleted returncode stdout stderr =>
          if returncode =? 0 then
            print (MsgCmdCompleted (nth 1 cmd "")) ;;
            (if PyStr.truthy stdout then print (MsgText stdout) else ret tt) ;;
            run_commands rest
          else
            print (MsgCmdFailed (nth 1 cmd "")) ;;
            print (MsgText stderr) ;;
            ret false
      end
  end.

Definition run_terraform_commands : M bool :=
  run_commands [["terraform"; "init"]; ["terraform"; "plan"]].

(** The [for file in [...]] clean-up loop of the destroy branch. *)
Fixpoint clean_up (names : list string) : M unit :=
  match names with
  | [] => ret tt
  | file :: rest =>
      present <- path_exists file ;;
      (if present : bool
       then remove E file ;; print (MsgCleaned file)
       else ret tt) ;;
      clean_up rest
  end.

(** The body of the [try] block of [main], after the file has been
    parsed into [doc]. *)
Definition main_body (fuel : nat) (act : action) (doc : list block) : M unit :=
  listener <- lift (walk doc new_listener) ;;
  token <- lift (resolve_token listener) ;;
  if bool_decide (droplet_config listener = ∅) then raise MissingResource
  else
    match act with
    | Apply =>
        created <- create_droplet fuel token (droplet_config listener) ;;
        let droplet_id := fst created in
        let ip := snd created in
        let listener := set_droplet droplet_id ip listener in
        print (MsgAvailable ip) ;;
        print (MsgDropletId droplet_id) ;;
        name <- lift (config_get (droplet_config listener) "name") ;;
        region <- lift (config_get (droplet_config listener) "region") ;;
        size <- lift (config_get (droplet_config listener) "size") ;;
        image <- lift (config_get (droplet_config listener) "image") ;;
        let droplet_info :=
          JObj [("id", droplet_id); ("ip", ip);
                ("name", JStr name); ("region", JStr region);
                ("size", JStr size); ("image", JStr image);
                ("created_at", JStr (strftime E)); ("tags", JArr [])] in
        save_droplet_info_json droplet_info ;;
        save_statefile droplet_info ;;
        print MsgEcosystem ;;
        run_terraform_commands ;;
        ret tt
    | Destroy =>
        present <- path_exists "droplet_info.json" ;;
        if present : bool then
          droplet_info <- json_load "droplet_info.json" ;;
          droplet_id <- lift (getitem droplet_info "id") ;;
          delete_droplet_api token droplet_id ;;
          clean_up ["droplet_info.json"; "terraform.tfstate"]
        else print MsgNoDropletInfo
    | Plan =>
        print MsgPlanHeader ;;
        print (MsgPlanConfig (droplet_config listener)) ;;
        run_terraform_commands ;;
        ret tt
    end.

(** [main]: the [except Exception] handler prints the error and exits
    with code 1; falling off the end of the [try] exits with code 0. *)
Definition main (fuel : nat) (act : action) (doc : list block)
    (w : world) : exit * world :=
  match main_body fuel act doc w with
  | (Ret _, w') => (Exit 0, w')
  | (Exc e, w') => (Exit 1, World (files w') (trace w' ++ [Print (MsgError e)]))
  | (Hang, w') => (StillPolling, w')
  end.

End Script.

(** ** Definitions used in the statements

    [last_value] and [symbol_table] word the Symbol Table the way the
    specification does; the others name parts of the script's behaviour. *)

(** The quote-stripped value of the last [key = ...] entry of a body. *)
Fixpoint last_value (key : string) (body : list keyValue) : option string :=
  match body with
  | [] => None
  | kv :: rest =>
      match last_value key rest with
      | Some v => Some v
      | None =>
          if String.eqb (kv_key kv) key
          then Some (PyStr.strip PyStr.dquote (kv_expr kv)) else None
      end
  end.

(** The Symbol Table of a document: a name is bound to the default of the
    last [variable] block of that name that has a [default] key. *)
Fixpoint symbol_table (doc : list block) (name : string) : option string :=
  match doc with
  | [] => None
  | b :: rest =>
      match symbol_table rest name with
      | Some v => Some v
      | None =>
          match b with
          | BVariable n body =>
              if String.eqb (PyStr.strip PyStr.dquote n) name
              then last_value "default" body else None
          | _ => None
          end
      end
  end.

(** What one poll response yields: the addresses of its public interfaces,
    or the exception that reading it raises. *)
Definition response_ips (r : http_result) : result (list json) :=
  match r with
  | HttpRaise => Raise RequestException
  | HttpResponse _ body =>
      match response_json body with
      | Raise e => Raise e
      | Ok j =>
          match getitem j "droplet" with
          | Raise e => Raise e
          | Ok d =>
              match getitem d "networks" with
              | Raise e => Raise e
              | Ok nets =>
                  match getitem nets "v4" with
                  | Raise e => Raise e
                  | Ok networks => public_ips networks
                  end
              end
          end
      end
  end.

(** [n] rounds of the polling loop that found no public address. *)
Fixpoint waiting_rounds (n : nat) (api_token : string) (droplet_id : json)
    : list event :=
  match n with
  | O => []
  | S n' => HttpGet api_token droplet_id :: Sleep 5
              :: waiting_rounds n' api_token droplet_id
  end.
(** The checks [main] makes before it looks at the action: the walk, the
    token resolution and the test that a droplet block was seen. *)
Definition preflight (doc : list block) : result (listener * string) :=
  match walk doc new_listener with
  | Raise e => Raise e
  | Ok listener =>
      match resolve_token listener with
      | Raise e => Raise e
      | Ok token =>
          if bool_decide (droplet_config listener = ∅) then Raise MissingResource
          else Ok (listener, token)
      end
  end.

(** The world after further events. *)
Definition after (w : world) (events : list event) : world :=
  World (files w) (trace w ++ events).

(** A step that always returns, leaves the files alone and calls no API. *)
Definition quiet {A} (m : M A) : Prop :=
  ∀ w, ∃ a new, m w = (Ret a, after w new) ∧ api_calls new = [].

(** ** A sample configuration and environment *)

Module Sample.

(** [str] on the ids of this sample: a number prints in decimal and a
    string is itself. *)
Definition str_of_id (j : json) : string :=
  match j with
  | JNum z => pretty z
  | JStr s => s
  | JNull => "None"
  | JBool true => "True"
  | JBool false => "False"
  | _ => ""
  end.

Definition variable_token : block :=
  BVariable (PyStr.quoted "token")
    [KeyValue "default" (PyStr.quoted "secret123")].

Definition provider_do : block :=
  BProvider (PyStr.quoted "digitalocean") [KeyValue "token" "var.token"].

Definition resource_web : block :=
  BResource (PyStr.quoted "digitalocean_droplet") (PyStr.quoted "web")
    [KeyValue "name" (PyStr.quoted "web-1");
     KeyValue "region" (PyStr.quoted "nyc1");
     KeyValue "size" (PyStr.quoted "s-1vcpu-1gb");
     KeyValue "image" (PyStr.quoted "ubuntu-22-04")].

(** The end-to-end configuration of the specification. *)
Definition doc_full : list block :=
  [variable_token; provider_do; resource_web].

(** The same without a [provider] block, so without a token. *)
Definition doc_no_token : list block := [resource_web].

(** The same without a [resource] block. *)
Definition doc_no_resource : list block := [variable_token; provider_do].

(** A configuration that names another provider first. *)
Definition doc_other_provider : list block :=
  [BProvider (PyStr.quoted "aws") [KeyValue "region" (PyStr.quoted "us-east-1")];
   resource_web].

Definition poll_body (networks : list json) : content :=
  Doc (JObj [("droplet",
              JObj [("id", JNum 42);
                    ("networks", JObj [("v4", JArr networks)])])]).

Definition interface (type_ ip : string) : json :=
  JObj [("ip_address", JStr ip); ("type", JStr type_)].

(** A droplet that is still being set up, and one that is active. *)
Definition pending : http_result := HttpResponse 200 (poll_body []).
Definition active : http_result :=
  HttpResponse 200
    (poll_body [interface "private" "10.0.0.2"; interface "public" "1.2.3.4"]).

(** The API creates droplet 42, which is active at the third poll. *)
Definition env_ok : env :=
  Env (HttpResponse 202 (Doc (JObj [("droplet", JObj [("id", JNum 42)])])))
      (fun i => if (i <? 2)%nat then pending else active)
      (HttpResponse 204 Garbage)
      (fun _ => true)
      "2024-01-01T00:00:00Z"
      (fun _ => SubRaise)
      (fun _ => true).

(** The API creates droplet 42 and then answers the first poll with an
    error document that has no [droplet] member. *)
Definition env_not_found : env :=
  Env (HttpResponse 202 (Doc (JObj [("droplet", JObj [("id", JNum 42)])])))
      (fun _ => HttpResponse 404
                  (Doc (JObj [("id", JStr "not_found");
                              ("message", JStr "not found")])))
      (HttpResponse 204 Garbage)
      (fun _ => true)
      "2024-01-01T00:00:00Z"
      (fun _ => SubRaise)
      (fun _ => true).

(** An empty working directory, and one that holds a resource record. *)
Definition w_empty : world := World ∅ [].
Definition w_record : world :=
  World {[ "droplet_info.json" := Doc (JObj [("id", JNum 42)]) ]} [].

End Sample.

(** ** Further definitions used in the statements *)

(** The text, as written, of the last [key = ...] entry of a body. *)
Fixpoint last_raw (key : string) (body : list keyValue) : option string :=
  match body with
  | [] => None
  | kv :: rest =>
      match last_raw key rest with
      | Some e => Some e
      | None => if String.eqb (kv_key kv) key then Some (kv_expr kv) else None
      end
  end.

(** The token expression of a document: the [token] entry written last,
    over all [provider] blocks. *)
Fixpoint token_expr_of (doc : list block) : option string :=
  match doc with
  | [] => None
  | b :: rest =>
      match token_expr_of rest with
      | Some e => Some e
      | None =>
          match b with
          | BProvider _ body => last_raw "token" body
          | _ => None
          end
      end
  end.

(** The droplet attributes of a document: a key is bound to its last value
    over all [resource] blocks of type [digitalocean_droplet]. *)
Fixpoint config_table (doc : list block) (key : string) : option string :=
  match doc with
  | [] => None
  | b :: rest =>
      match config_table rest key with
      | Some v => Some v
      | None =>
          match b with
          | BResource t _ body =>
              if String.eqb (PyStr.strip PyStr.dquote t) "digitalocean_droplet"
              then last_value key body else None
          | _ => None
          end
      end
  end.

(** A block the walk accepts: anything but a [provider] of another name. *)
Definition supported (b : block) : bool :=
  match b with
  | BProvider name _ =>
      String.eqb (PyStr.strip PyStr.dquote name) "digitalocean"
  | _ => true
  end.

(** A droplet block that has at least one entry. *)
Definition droplet_with_entries (b : block) : bool :=
  match b with
  | BResource t _ (_ :: _) =>
      String.eqb (PyStr.strip PyStr.dquote t) "digitalocean_droplet"
  | _ => false
  end.

(** The first of the four attributes [create_droplet] reads that a
    configuration lacks. *)
Definition first_missing (config : gmap string string) : option string :=
  List.find (fun key => bool_decide (config !! key = None))
            ["name"; "region"; "size"; "image"].

(** Did a subprocess complete with return code 0. *)
Definition succeeded (r : subprocess_result) : bool :=
  match r with
  | SubCompleted returncode _ _ => returncode =? 0
  | SubRaise => false
  end.

Definition is_subprocess (e : event) : bool :=
  match e with
  | Subprocess _ => true
  | _ => false
  end.

(** [snapshot["resources"][0]["instances"][0]["attributes"]] *)
Definition snapshot_attributes (snapshot : json) : option json :=
  match getitem snapshot "resources" with
  | Ok (JArr (resource :: _)) =>
      match getitem resource "instances" with
      | Ok (JArr (instance :: _)) =>
          match getitem instance "attributes" with
          | Ok attributes => Some attributes
          | Raise _ => None
          end
      | _ => None
      end
  | _ => None
  end.

(** The body of the create request for the four configured attributes. *)
Definition create_payload (name region size image : string) : json :=
  JObj [("name", JStr name); ("region", JStr region);
        ("size", JStr size); ("image", JStr image);
        ("ssh_keys", JArr []); ("backups", JBool false);
        ("ipv6", JBool false); ("user_data", JNull);
        ("private_networking", JNull); ("volumes", JNull);
        ("tags", JArr [])].

(** What the answer to the create request yields: the id of the new
    droplet, or the exception that reading the answer raises. *)
Definition created_id (r : http_result) : result json :=
  match r with
  | HttpRaise => Raise RequestException
  | HttpResponse status_code body =>
      match raise_for_status status_code with
      | Raise e => Raise e
      | Ok _ =>
          match response_json body with
          | Raise e => Raise e
          | Ok j =>
              match getitem j "droplet" with
              | Raise e => Raise e
              | Ok droplet => getitem droplet "id"
              end
          end
      end
  end.

(** The resource record the apply branch assembles. *)
Definition resource_record (id ip : json)
    (name region size image created_at : string) : json :=
  JObj [("id", id); ("ip", ip);
        ("name", JStr name); ("region", JStr region);
        ("size", JStr size); ("image", JStr image);
        ("created_at", JStr created_at); ("tags", JArr [])].

(** A state snapshot mirrors a record: its instance attributes repeat the
    fields of the record, the id as a string and the address under
    [ipv4_address], with [status] set to [active]. *)
Definition mirrors (py_str : json -> string) (record snapshot : json) : Prop :=
  ∃ attributes,
    snapshot_attributes snapshot = Some attributes
    ∧ (∀ id, getitem record "id" = Ok id →
             getitem attributes "id" = Ok (JStr (py_str id)))
    ∧ getitem attributes "name" = getitem record "name"
    ∧ getitem attributes "region" = getitem record "region"
    ∧ getitem attributes "size" = getitem record "size"
    ∧ getitem attributes "image" = getitem record "image"
    ∧ getitem attributes "ipv4_address" = getitem record "ip"
    ∧ getitem attributes "status" = Ok (JStr "active")
    ∧ getitem attributes "created_at"
      = Ok (match getitem record "created_at" with
            | Ok v => v
            | Raise _ => JStr ""
            end)
    ∧ getitem attributes "tags"
      = Ok (match getitem record "tags" with
            | Ok v => v
            | Raise _ => JArr []
            end).

(** The exception raised by the first of [keys] that cannot be read from
    [droplet_info], if there is one. *)
Fixpoint first_raise (droplet_info : json) (keys : list string) : option exn :=
  match keys with
  | [] => None
  | key :: rest =>
      match getitem droplet_info key with
      | Raise e => Some e
      | Ok _ => first_raise droplet_info rest
      end
  end.

(** The same for the six fields [save_statefile] subscripts, in its order. *)
Definition first_unreadable (droplet_info : json) : option exn :=
  first_raise droplet_info ["id"; "name"; "region"; "size"; "image"; "ip"].

(** The working directory after the two save steps of the apply branch. *)
Definition persisted (E : env) (record snapshot : json)
    (fs : gmap string content) : gmap string content :=
  let fs1 := if can_write E "droplet_info.json"
             then <["droplet_info.json" := Doc record]> fs else fs in
  if can_write E "terraform.tfstate"
  then <["terraform.tfstate" := Doc snapshot]> fs1 else fs1.

(** What the destroy branch reports and requests for a delete that was
    answered with [status_code]. *)
Definition delete_report (tok : string) (id : json) (status_code : Z)
    : list event :=
  [Print (MsgDeleting id); HttpDelete tok id;
   Print (if status_code =? 204 then MsgDeleted id
          else MsgDeleteFailed id status_code)].


(** ** Further sample configurations and environments *)

Module Cases.

(** A droplet block that gives only a name. *)
Definition doc_incomplete : list block :=
  [Sample.variable_token; Sample.provider_do;
   BResource (PyStr.quoted "digitalocean_droplet") (PyStr.quoted "web")
     [KeyValue "name" (PyStr.quoted "web-1")]].

(** The API rejects the create request. *)
Definition env_unauthorized : env :=
  Env (HttpResponse 401 (Doc (JObj [("id", JStr "Unauthorized")])))
      (fun _ => Sample.pending)
      (HttpResponse 204 Garbage)
      (fun _ => true)
      "2024-01-01T00:00:00Z"
      (fun _ => SubRaise)
      (fun _ => true).

(** The API creates droplet 42, which never gets a public address; the
    delete request is answered with 404. *)
Definition env_pending : env :=
  Env (HttpResponse 202 (Doc (JObj [("droplet", JObj [("id", JNum 42)])])))
      (fun _ => Sample.pending)
      (HttpResponse 404 Garbage)
      (fun _ => true)
      "2024-01-01T00:00:00Z"
      (fun _ => SubRaise)
      (fun _ => true).

(** As [Sample.env_ok], in a directory where no file can be written or
    removed, and with [terraform init] succeeding and [terraform plan]
    failing. *)
Definition env_read_only : env :=
  Env (HttpResponse 202 (Doc (JObj [("droplet", JObj [("id", JNum 42)])])))
      (fun i => if (i <? 2)%nat then Sample.pending else Sample.active)
      (HttpResponse 204 Garbage)
      (fun _ => false)
      "2024-01-01T00:00:00Z"
      (fun cmd => if String.eqb (nth 1 cmd "") "init"
                  then SubCompleted 0 "Initialized" ""
                  else SubCompleted 1 "" "Error: no configuration")
      (fun _ => false).

(** A directory holding a record that is not JSON. *)
Definition w_garbage : world :=
  World {[ "droplet_info.json" := Garbage ]} [].

End Cases.

(** A network entry the list comprehension of the polling loop gets past:
    its [type] can be read and, when that is [public], so can its
    [ip_address]. *)
Definition readable_interface (n : json) : Prop :=
  ∃ t, getitem n "type" = Ok t
       ∧ (is_public t = true → ∃ ip, getitem n "ip_address" = Ok ip).

Section StringFacts.
Import PyStr.
Variable c : ascii.

Lemma lstrip_repeat n s : first s ≠ Some c → lstrip c (repeat c n +:+ s) = lstrip c s.
Proof.
  intros _. induction n as [|n IH]; simpl; [done|]. by rewrite Ascii.eqb_refl.
Qed.

Lemma lstrip_id s : first s ≠ Some c → lstrip c s = s.
Proof.
  destruct s as [|a s]; simpl; [done|]. intros H.
  destruct (Ascii.eqb_spec a c) as [->|]; [by destruct H|done].
Qed.

Lemma rstrip_repeat n : rstrip c (repeat c n) = "".
Proof. induction n as [|n IH]; simpl; [done|]. by rewrite IH, Ascii.eqb_refl. Qed.

Lemma rstrip_app_repeat s n :
  s ≠ "" → last s ≠ Some c → rstrip c (s +:+ repeat c n) = s.
Proof.
  induction s as [|a s IH]; [done|]. intros _ Hl.
  destruct s as [|b s].
  - change (String a "" +:+ repeat c n) with (String a (repeat c n)).
    cbn [rstrip]. rewrite rstrip_repeat.
    destruct (Ascii.eqb_spec a c) as [->|]; [by destruct Hl|done].
  - change (String a (String b s) +:+ repeat c n)
      with (String a (String b s +:+ repeat c n)).
    cbn [rstrip]. rewrite IH; [done|done|exact Hl].
Qed.

Lemma first_app s t : s ≠ "" → first (s +:+ t) = first s.
Proof. by destruct s. Qed.

Lemma lstrip_repeat_all n m : lstrip c (repeat c n +:+ repeat c m) = "".
Proof.
  induction n as [|n IH]; simpl; [|by rewrite Ascii.eqb_refl].
  induction m as [|m IH]; simpl; [done|]. by rewrite Ascii.eqb_refl.
Qed.

Lemma strip_surrounding a b s :
  s = "" ∨ (first s ≠ Some c ∧ last s ≠ Some c) →
  strip c (repeat c a +:+ s +:+ repeat c b) = s.
Proof.
  unfold strip. intros Hs. destruct (decide (s = "")) as [->|Hne].
  - change ("" +:+ repeat c b) with (repeat c b).
    by rewrite lstrip_repeat_all.
  - destruct Hs as [->|[Hf Hl]]; [done|].
    rewrite lstrip_repeat, lstrip_id.
    + by apply rstrip_app_repeat.
    + by rewrite first_app.
    + by rewrite first_app.
Qed.

Lemma split_cons s : ∃ t, split c s = before c s :: t.
Proof.
  induction s as [|a s [t IH]]; simpl; [by eexists|].
  destruct (Ascii.eqb a c); [by eexists|]. rewrite IH. by eexists.
Qed.

Lemma split_app_sep p s :
  contains c p = false → split c (p +:+ String c s) = p :: split c s.
Proof.
  induction p as [|a p IH]; simpl.
  - intros _. by rewrite Ascii.eqb_refl.
  - intros [Ha Hp]%orb_false_iff. rewrite Ha, IH; done.
Qed.

Lemma before_app_sep p s : contains c p = false → before c (p +:+ String c s) = p.
Proof.
  induction p as [|a p IH]; simpl.
  - intros _. by rewrite Ascii.eqb_refl.
  - intros [Ha Hp]%orb_false_iff. by rewrite Ha, IH.
Qed.

Lemma before_id s : contains c s = false → before c s = s.
Proof.
  induction s as [|a s IH]; simpl; [done|].
  intros [Ha Hp]%orb_false_iff. by rewrite Ha, IH.
Qed.
End StringFacts.

Section StripDecompose.
Import PyStr.
Variable c : ascii.

Lemma lstrip_decompose s :
  ∃ a, s = repeat c a +:+ lstrip c s ∧ first (lstrip c s) ≠ Some c.
Proof.
  induction s as [|x s (a & Hs & Hf)].
  - by exists 0%nat.
  - cbn [lstrip]. destruct (Ascii.eqb_spec x c) as [->|Hne].
    + exists (S a). split; [|done].
      change (String c s = String c (repeat c a +:+ lstrip c s)). by f_equal.
    + exists 0%nat. split; [done|]. cbn. congruence.
Qed.

Lemma rstrip_decompose s :
  ∃ b, s = rstrip c s +:+ repeat c b
       ∧ last (rstrip c s) ≠ Some c
       ∧ (rstrip c s ≠ "" → first (rstrip c s) = first s).
Proof.
  induction s as [|x s (b & Hs & Hl & Hf)].
  - by exists 0%nat.
  - cbn [rstrip]. destruct (rstrip c s) as [|y r] eqn:Hr.
    + destruct (Ascii.eqb_spec x c) as [->|Hne].
      * exists (S b). split; [|done].
        change (String c s = String c ("" +:+ repeat c b)). by f_equal.
      * exists b. split; [|split; [cbn; congruence|done]].
        change (String x s = String x ("" +:+ repeat c b)). by f_equal.
    + exists b. split; [|by split].
      change (String x s = String x (String y r +:+ repeat c b)). by f_equal.
Qed.

Lemma strip_decompose s :
  ∃ a b, s = repeat c a +:+ strip c s +:+ repeat c b
         ∧ (strip c s = "" ∨ (first (strip c s) ≠ Some c
                              ∧ last (strip c s) ≠ Some c)).
Proof.
  destruct (lstrip_decompose s) as (a & Hs & Hf).
  destruct (rstrip_decompose (lstrip c s)) as (b & Ht & Hl & Hfirst).
  exists a, b. unfold strip. split.
  - by rewrite <- Ht.
  - destruct (decide (rstrip c (lstrip c s) = "")) as [|Hne]; [by left|].
    right. split; [|done]. by rewrite Hfirst.
Qed.
End StripDecompose.

Lemma startswith_app p s : PyStr.startswith p (p +:+ s) = true.
Proof. induction p as [|a p IH]; simpl; [done|]. by rewrite Ascii.eqb_refl. Qed.

Lemma startswith_inv p s : PyStr.startswith p s = true → ∃ r, s = p +:+ r.
Proof.
  revert s. induction p as [|a p IH]; intros s; simpl.
  - by exists s.
  - destruct s as [|b s]; [done|]. intros [Hab Hp]%andb_true_iff.
    apply Ascii.eqb_eq in Hab as ->. destruct (IH _ Hp) as [r ->]. by exists r.
Qed.

Lemma split_var rest :
  PyStr.split PyStr.dot ("var." +:+ rest) !! 1%nat = Some (PyStr.before PyStr.dot rest).
Proof.
  change ("var." +:+ rest) with ("var" +:+ String PyStr.dot rest).
  rewrite split_app_sep by reflexivity.
  destruct (split_cons PyStr.dot rest) as [t ->]. done.
Qed.

(** ** Token resolution *)

Lemma resolve_token_var self rest :
  provider_token_expr self = Some ("var." +:+ rest) →
  resolve_token self =
    match variables self !! PyStr.before PyStr.dot rest with
    | Some v => Ok v
    | None => Raise (UndefinedVariable (PyStr.before PyStr.dot rest))
    end.
Proof.
  intros He. unfold resolve_token. rewrite He.
  change (PyStr.truthy ("var." +:+ rest)) with true. cbn [negb].
  rewrite startswith_app, split_var. done.
Qed.

Lemma resolve_token_absent self :
  provider_token_expr self = None ∨ provider_token_expr self = Some "" →
  resolve_token self = Raise NoToken.
Proof. unfold resolve_token. by intros [-> | ->]. Qed.

(** C4. [resolve_token] raises the no-token error when the stored expression
    is absent or empty; on [var.<name>] it raises the undefined-variable
    error when [<name>] is not in the Symbol Table and returns the stored
    default when it is; any other expression is returned with its
    surrounding quotes removed, so the literal ["abc123"] gives [abc123]. *)
Theorem resolve_token_contract (self : listener) :
  (provider_token_expr self = None ∨ provider_token_expr self = Some "" →
   resolve_token self = Raise NoToken)
  ∧ (∀ name, PyStr.contains PyStr.dot name = false →
       provider_token_expr self = Some ("var." +:+ name) →
       (variables self !! name = None →
        resolve_token self = Raise (UndefinedVariable name))
       ∧ (∀ v, variables self !! name = Some v → resolve_token self = Ok v))
  ∧ (∀ expr, provider_token_expr self = Some expr →
       PyStr.startswith "var." expr = true →
       ∃ rest, expr = "var." +:+ rest ∧
         resolve_token self =
           match variables self !! PyStr.before PyStr.dot rest with
           | Some v => Ok v
           | None => Raise (UndefinedVariable (PyStr.before PyStr.dot rest))
           end)
  ∧ (∀ expr, provider_token_expr self = Some expr →
       expr ≠ "" →
       PyStr.startswith "var." expr = false →
       (∃ a b body,
          expr = PyStr.repeat PyStr.dquote a +:+ body
                 +:+ PyStr.repeat PyStr.dquote b
          ∧ (body = "" ∨ (PyStr.first body ≠ Some PyStr.dquote
                          ∧ PyStr.last body ≠ Some PyStr.dquote))
          ∧ resolve_token self = Ok body)
       ∧ (∀ a b body,
            expr = PyStr.repeat PyStr.dquote a +:+ body
                   +:+ PyStr.repeat PyStr.dquote b →
            body = "" ∨ (PyStr.first body ≠ Some PyStr.dquote
                         ∧ PyStr.last body ≠ Some PyStr.dquote) →
            resolve_token self = Ok body))
  ∧ (provider_token_expr self = Some (PyStr.quoted "abc123") →
     resolve_token self = Ok "abc123").
Proof.
  split; [|split; [|split; [|split]]].
  - apply resolve_token_absent.
  - intros name Hname He. rewrite (resolve_token_var _ _ He), before_id by done.
    split; [by intros ->|by intros v ->].
  - intros expr He [rest ->]%startswith_inv. exists rest. split; [done|].
    by apply resolve_token_var.
  - intros expr He Hne Hpre.
    assert (Hlit : resolve_token self = Ok (PyStr.strip PyStr.dquote expr)).
    { unfold resolve_token. rewrite He, Hpre. by destruct expr. }
    split.
    + destruct (strip_decompose PyStr.dquote expr) as (a & b & Hexpr & Hbody).
      by exists a, b, (PyStr.strip PyStr.dquote expr).
    + intros a b body -> Hbody. rewrite Hlit. f_equal.
      by apply strip_surrounding.
  - intros He. unfold resolve_token. by rewrite He.
Qed.

Lemma resolve_token_contract_witness :
  resolve_token (Listener ∅ None ∅ None None) = Raise NoToken
  ∧ resolve_token (Listener ∅ (Some "var.token") ∅ None None)
    = Raise (UndefinedVariable "token")
  ∧ resolve_token (Listener {[ "token" := "secret123" ]} (Some "var.token")
                            ∅ None None)
    = Ok "secret123"
  ∧ resolve_token (Listener ∅ (Some (PyStr.quoted "abc123")) ∅ None None)
    = Ok "abc123"
  ∧ resolve_token (Listener ∅ (Some (PyStr.quoted "nyc1")) ∅ None None)
    = Ok "nyc1".
Proof.
  split; [|split; [|split; [|split]]].
  - apply (proj1 (resolve_token_contract _)). left. reflexivity.
  - apply (proj1 (proj2 (resolve_token_contract _)) "token");
      reflexivity.
  - apply (proj1 (proj2 (resolve_token_contract _)) "token");
      reflexivity.
  - apply (proj2 (proj2 (proj2 (proj2 (resolve_token_contract _))))).
    reflexivity.
  - apply (proj2 (proj1 (proj2 (proj2 (proj2
             (resolve_token_contract
                (Listener ∅ (Some (PyStr.quoted "nyc1")) ∅ None None)))))
             (PyStr.quoted "nyc1") eq_refl ltac:(discriminate) eq_refl)
             1%nat 1%nat "nyc1" eq_refl).
    right. split; discriminate.
Defined.

(** C10. For [var.<a>.<b>] only the first segment [<a>] is looked up in the
    Symbol Table; what follows the second dot plays no part, and the name
    reported in the undefined-variable error is [<a>]. *)
Theorem resolve_token_first_segment (self : listener) (a b : string) :
  PyStr.contains PyStr.dot a = false →
  provider_token_expr self = Some ("var." +:+ a +:+ "." +:+ b) →
  resolve_token self =
    match variables self !! a with
    | Some v => Ok v
    | None => Raise (UndefinedVariable a)
    end.
Proof.
  intros Ha He. rewrite (resolve_token_var _ _ He).
  change ("." +:+ b) with (String PyStr.dot b).
  by rewrite before_app_sep.
Qed.

Lemma resolve_token_first_segment_witness :
  resolve_token (Listener {[ "x" := "first"; "x.y" := "whole" ]}
                          (Some "var.x.y") ∅ None None)
  = Ok "first".
Proof.
  rewrite (resolve_token_first_segment
             (Listener {[ "x" := "first"; "x.y" := "whole" ]}
                       (Some "var.x.y") ∅ None None)
             "x" "y" eq_refl eq_refl).
  reflexivity.
Defined.

(** ** Extraction *)

Lemma last_value_app_entry key pre e post :
  Forall (fun kv => kv_key kv ≠ key) post →
  last_value key (pre ++ KeyValue key e :: post)
  = Some (PyStr.strip PyStr.dquote e).
Proof.
  intros Hpost.
  assert (Hnone : last_value key post = None).
  { induction Hpost as [|kv post Hkv _ IH]; [done|]. cbn [last_value].
    rewrite IH. by apply String.eqb_neq in Hkv as ->. }
  induction pre as [|kv pre IH]; cbn [app last_value].
  - rewrite Hnone. cbn [kv_key kv_expr]. by rewrite String.eqb_refl.
  - by rewrite IH.
Qed.

Lemma last_value_absent key body :
  Forall (fun kv => kv_key kv ≠ key) body → last_value key body = None.
Proof.
  induction 1 as [|kv body Hkv _ IH]; [done|]. cbn [last_value].
  rewrite IH. by apply String.eqb_neq in Hkv as ->.
Qed.

Lemma set_variable_twice k v v' self :
  set_variable k v (set_variable k v' self) = set_variable k v self.
Proof. unfold set_variable. cbn. by rewrite insert_insert_eq. Qed.

Lemma set_config_other k v k' self :
  k ≠ k' → droplet_config (set_config k v self) !! k' = droplet_config self !! k'.
Proof. intros Hne. cbn. by rewrite lookup_insert_ne. Qed.

(** [enterVariable] as one update: the last [default] entry wins. *)
Lemma enterVariable_last name body self :
  enterVariable name body self =
    match last_value "default" body with
    | Some v => set_variable (PyStr.strip PyStr.dquote name) v self
    | None => self
    end.
Proof.
  unfold enterVariable. revert self.
  induction body as [|kv body IH]; intros self; [done|].
  cbn [foldl last_value]. rewrite IH.
  destruct (last_value "default" body) as [v|].
  - destruct (String.eqb (kv_key kv) "default"); [|done].
    apply set_variable_twice.
  - by destruct (String.eqb (kv_key kv) "default").
Qed.

Lemma enterProvider_variables name body self self' :
  enterProvider name body self = Ok self' → variables self' = variables self.
Proof.
  unfold enterProvider. destruct (negb _); [done|]. intros [= <-].
  revert self. induction body as [|kv body IH]; intros self; [done|].
  cbn [foldl]. rewrite IH. by destruct (String.eqb (kv_key kv) "token").
Qed.

Lemma enterResource_variables type_ name body self :
  variables (enterResource type_ name body self) = variables self.
Proof.
  unfold enterResource. destruct (negb _); [done|].
  revert self. induction body as [|kv body IH]; intros self; [done|].
  cbn [foldl]. by rewrite IH.
Qed.

Lemma walk_variables doc : ∀ self l name,
  walk doc self = Ok l →
  variables l !! name =
    match symbol_table doc name with
    | Some v => Some v
    | None => variables self !! name
    end.
Proof.
  induction doc as [|b doc IH]; intros self l name; cbn [walk symbol_table].
  - by intros [= ->].
  - destruct (enter b self) as [self'|e] eqn:Hb; [|done].
    intros Hl. rewrite (IH _ _ name Hl).
    destruct (symbol_table doc name) as [v|]; [done|].
    destruct b as [n body|n body|t n body]; cbn [enter] in Hb.
    + injection Hb as <-. rewrite enterVariable_last.
      destruct (String.eqb_spec (PyStr.strip PyStr.dquote n) name) as [->|Hne].
      * destruct (last_value "default" body); [|done].
        cbn. by rewrite lookup_insert_eq.
      * destruct (last_value "default" body); [|done].
        cbn. by rewrite lookup_insert_ne.
    + by rewrite (enterProvider_variables _ _ _ _ Hb).
    + injection Hb as <-. by rewrite enterResource_variables.
Qed.

(** C5. A [variable] block with a [default] key leaves the quote-stripped
    value of that key in the Symbol Table under the block's name; a block
    with no [default] key changes nothing; and after a whole document the
    table binds each name to the default of the last such block of that
    name, so a later block overwrites an earlier one. *)
Theorem variable_blocks_last_write_wins :
  (∀ name pre e post self,
     Forall (fun kv => kv_key kv ≠ "default") post →
     variables (enterVariable name (pre ++ KeyValue "default" e :: post) self)
       !! PyStr.strip PyStr.dquote name
     = Some (PyStr.strip PyStr.dquote e))
  ∧ (∀ name body self,
       Forall (fun kv => kv_key kv ≠ "default") body →
       enterVariable name body self = self)
  ∧ (∀ doc l name,
       walk doc new_listener = Ok l →
       variables l !! name = symbol_table doc name)
  ∧ (∀ doc name pre e post l,
       Forall (fun kv => kv_key kv ≠ "default") post →
       walk (doc ++ [BVariable name (pre ++ KeyValue "default" e :: post)])
            new_listener = Ok l →
       variables l !! PyStr.strip PyStr.dquote name
       = Some (PyStr.strip PyStr.dquote e)).
Proof.
  split; [|split; [|split]].
  - intros name pre e post self Hpost.
    rewrite enterVariable_last, last_value_app_entry by done.
    cbn. by rewrite lookup_insert_eq.
  - intros name body self Hbody.
    by rewrite enterVariable_last, last_value_absent.
  - intros doc l name Hl. rewrite (walk_variables _ _ _ name Hl).
    by destruct (symbol_table doc name).
  - intros doc name pre e post l Hpost Hl.
    rewrite (walk_variables _ _ _ (PyStr.strip PyStr.dquote name) Hl).
    assert (Hlast : symbol_table
              (doc ++ [BVariable name (pre ++ KeyValue "default" e :: post)])
              (PyStr.strip PyStr.dquote name)
            = Some (PyStr.strip PyStr.dquote e)).
    { clear Hl. induction doc as [|b doc IH]; cbn [app symbol_table].
      - by rewrite String.eqb_refl, last_value_app_entry.
      - by rewrite IH. }
    by rewrite Hlast.
Qed.

Lemma variable_blocks_last_write_wins_witness :
  ∃ l,
    walk [Sample.variable_token;
          BVariable (PyStr.quoted "token")
            [KeyValue "default" (PyStr.quoted "other")]] new_listener = Ok l
    ∧ variables l !! "token" = Some "other".
Proof.
  eexists. split; [reflexivity|].
  apply (proj2 (proj2 (proj2 variable_blocks_last_write_wins))
           [Sample.variable_token] (PyStr.quoted "token") []
           (PyStr.quoted "other") []).
  - apply Forall_nil_2.
  - reflexivity.
Defined.

Lemma enterResource_config type_ name body self key :
  PyStr.strip PyStr.dquote type_ = "digitalocean_droplet" →
  droplet_config (enterResource type_ name body self) !! key =
    match last_value key body with
    | Some v => Some v
    | None => droplet_config self !! key
    end.
Proof.
  intros Ht. unfold enterResource. rewrite Ht, String.eqb_refl.
  cbn [negb]. revert self.
  induction body as [|kv body IH]; intros self; [done|].
  cbn [foldl last_value]. rewrite IH.
  destruct (last_value key body) as [v|]; [done|].
  destruct (String.eqb_spec (kv_key kv) key) as [<-|Hne].
  - cbn. by rewrite lookup_insert_eq.
  - by apply set_config_other.
Qed.

(** C6. A [resource] block of another type leaves the listener as it was.
    A block of type [digitalocean_droplet] stores every entry of its body in
    [droplet_config] with the quotes of the value removed, the last entry of
    a key winning, and leaves the keys it does not mention untouched. *)
Theorem resource_block_extraction (type_ name : string) (self : listener) :
  (PyStr.strip PyStr.dquote type_ ≠ "digitalocean_droplet" →
   ∀ body, enterResource type_ name body self = self
           ∧ enter (BResource type_ name body) self = Ok self)
  ∧ (PyStr.strip PyStr.dquote type_ = "digitalocean_droplet" →
     (∀ key pre e post,
        Forall (fun kv => kv_key kv ≠ key) post →
        droplet_config
          (enterResource type_ name (pre ++ KeyValue key e :: post) self) !! key
        = Some (PyStr.strip PyStr.dquote e))
     ∧ (∀ key body,
          Forall (fun kv => kv_key kv ≠ key) body →
          droplet_config (enterResource type_ name body self) !! key
          = droplet_config self !! key)).
Proof.
  split.
  - intros Ht body. cbn [enter]. unfold enterResource.
    by apply String.eqb_neq in Ht as ->.
  - intros Ht. split.
    + intros key pre e post Hpost.
      by rewrite enterResource_config, last_value_app_entry.
    + intros key body Hbody.
      by rewrite enterResource_config, last_value_absent.
Qed.

Lemma resource_block_extraction_witness :
  enterResource (PyStr.quoted "aws_instance") (PyStr.quoted "db")
    [KeyValue "name" (PyStr.quoted "db-1")] new_listener = new_listener
  ∧ droplet_config
      (enterResource (PyStr.quoted "digitalocean_droplet") (PyStr.quoted "web")
         [KeyValue "size" (PyStr.quoted "small");
          KeyValue "size" (PyStr.quoted "large");
          KeyValue "name" (PyStr.quoted "web-1")] new_listener) !! "size"
    = Some "large".
Proof.
  split.
  - apply (proj1 (resource_block_extraction _ _ _)).
    vm_compute. discriminate.
  - apply (proj1 (proj2 (resource_block_extraction
                           (PyStr.quoted "digitalocean_droplet") _ _) eq_refl)
             "size" [KeyValue "size" (PyStr.quoted "small")]
             (PyStr.quoted "large") [KeyValue "name" (PyStr.quoted "web-1")]).
    apply Forall_cons_2; [vm_compute; discriminate|apply Forall_nil_2].
Defined.

(** ** The driver *)

Lemma after_after w e1 e2 : after (after w e1) e2 = after w (e1 ++ e2).
Proof. unfold after. cbn. by rewrite app_assoc. Qed.

Lemma after_nil w : after w [] = w.
Proof. destruct w. unfold after. cbn. by rewrite app_nil_r. Qed.

Lemma api_calls_app t1 t2 : api_calls (t1 ++ t2) = api_calls t1 ++ api_calls t2.
Proof. unfold api_calls. apply List.filter_app. Qed.

Lemma bind_ret {A B} (a : A) (k : A -> M B) w : bind (ret a) k w = k a w.
Proof. done. Qed.

Lemma bind_run {A B} (m : M A) (k : A -> M B) a w w' :
  m w = (Ret a, w') → bind m k w = k a w'.
Proof. unfold bind. by intros ->. Qed.

Lemma bind_exc {A B} (m : M A) (k : A -> M B) e w w' :
  m w = (Exc e, w') → bind m k w = (Exc e, w').
Proof. unfold bind. by intros ->. Qed.

Lemma bind_emit {A} e (k : unit -> M A) w : bind (emit e) k w = k tt (after w [e]).
Proof. done. Qed.

Lemma bind_print {A} m (k : unit -> M A) w :
  bind (print m) k w = k tt (after w [Print m]).
Proof. done. Qed.

Lemma quiet_ret {A} (a : A) : quiet (ret a).
Proof. intros w. exists a, []. by rewrite after_nil. Qed.

Lemma quiet_print m : quiet (print m).
Proof. intros w. by exists tt, [Print m]. Qed.

Lemma quiet_bind {A B} (m : M A) (k : A -> M B) :
  quiet m → (∀ a, quiet (k a)) → quiet (bind m k).
Proof.
  intros Hm Hk w. destruct (Hm w) as (a & new & Hrun & Hnew).
  destruct (Hk a (after w new)) as (b & new' & Hrun' & Hnew').
  exists b, (new ++ new'). unfold bind. rewrite Hrun, Hrun', after_after.
  split; [done|]. by rewrite api_calls_app, Hnew, Hnew'.
Qed.

Section Driver.

Variable py_str : json -> string.
Variable E : env.

Lemma quiet_subprocess cmd : quiet (emit (Subprocess cmd)).
Proof. intros w. by exists tt, [Subprocess cmd]. Qed.

(** The subprocess step always returns, touches no file and calls no API. *)
Lemma run_commands_quiet commands : quiet (run_commands E commands).
Proof.
  induction commands as [|cmd rest IH]; cbn [run_commands].
  - apply quiet_ret.
  - apply quiet_bind; [apply quiet_print|intros _].
    apply quiet_bind; [apply quiet_subprocess|intros _].
    destruct (subprocess_run E cmd) as [|rc out err].
    + apply quiet_bind; [apply quiet_print|intros _; apply quiet_ret].
    + destruct (rc =? 0).
      * apply quiet_bind; [apply quiet_print|intros _].
        apply quiet_bind; [|by intros _].
        destruct (PyStr.truthy out); [apply quiet_print|apply quiet_ret].
      * apply quiet_bind; [apply quiet_print|intros _].
        apply quiet_bind; [apply quiet_print|intros _; apply quiet_ret].
Qed.

(** [main] is the pre-flight checks followed by the chosen branch. *)
Lemma main_preflight_fails fuel act doc w e :
  preflight doc = Raise e →
  main py_str E fuel act doc w = (Exit 1, after w [Print (MsgError e)]).
Proof.
  unfold preflight, main, main_body, bind, lift, raise, ret.
  destruct (walk doc new_listener) as [l|e']; [|by intros [= ->]].
  destruct (resolve_token l) as [tok|e']; [|by intros [= ->]].
  destruct (bool_decide _); [|done]. by intros [= <-].
Qed.

Lemma main_destroy_no_record fuel doc w l tok :
  preflight doc = Ok (l, tok) →
  files w !! "droplet_info.json" = None →
  main py_str E fuel Destroy doc w = (Exit 0, after w [Print MsgNoDropletInfo]).
Proof.
  unfold preflight, main, main_body, bind, lift, raise, ret, path_exists.
  destruct (walk doc new_listener) as [l'|e']; [|done].
  destruct (resolve_token l') as [tok'|e']; [|done].
  destruct (bool_decide (droplet_config l' = ∅)); [done|]. intros _ Hnone.
  rewrite Hnone. rewrite bool_decide_eq_false_2; [done|].
  by intros [x Hx].
Qed.

Lemma preflight_inv doc l tok :
  preflight doc = Ok (l, tok) →
  walk doc new_listener = Ok l ∧ resolve_token l = Ok tok
  ∧ droplet_config l ≠ ∅.
Proof.
  unfold preflight.
  destruct (walk doc new_listener) as [l'|e'] eqn:Hw; [|done].
  destruct (resolve_token l') as [tok'|e'] eqn:Hr; [|done].
  case_bool_decide as Hc; [done|]. by intros [= <- <-].
Qed.

Ltac enter_branch Hpre :=
  let Hw := fresh "Hw" in
  let Hr := fresh "Hr" in
  let Hc := fresh "Hc" in
  destruct (preflight_inv _ _ _ Hpre) as (Hw & Hr & Hc);
  unfold main, main_body; rewrite Hw; cbn [lift]; rewrite bind_ret, Hr;
  cbn [lift]; rewrite bind_ret, bool_decide_eq_false_2 by done.

Lemma main_plan fuel doc w l tok :
  preflight doc = Ok (l, tok) →
  ∃ new, main py_str E fuel Plan doc w = (Exit 0, after w new)
         ∧ api_calls new = [].
Proof.
  intros Hpre. enter_branch Hpre.
  assert (Hq : quiet (print MsgPlanHeader ;;
                      print (MsgPlanConfig (droplet_config l)) ;;
                      run_terraform_commands E ;; ret tt)).
  { repeat (apply quiet_bind; [first [apply quiet_print|apply run_commands_quiet]|intros _]).
    apply quiet_ret. }
  destruct (Hq w) as ([] & new & -> & Hnew). by exists new.
Qed.

(** The clean-up calls no API, and it returns or raises. *)
Lemma clean_up_spec names : ∀ w,
  ∃ r fs new,
    clean_up E names w = (r, World fs (trace w ++ new))
    ∧ api_calls new = []
    ∧ r ≠ Hang.
Proof.
  induction names as [|file rest IH]; intros w; cbn [clean_up].
  - exists (Ret tt), (files w), []. destruct w. cbn. by rewrite app_nil_r.
  - unfold bind at 1. unfold path_exists.
    destruct (files w !! file) as [c|] eqn:Hf.
    + rewrite bool_decide_eq_true_2 by eauto.
      unfold bind at 1. unfold bind at 1. unfold remove, print, emit.
      destruct (can_remove E file).
      * edestruct IH as (r & fs & new & -> & Hnew & Hr). cbn [files trace].
        rewrite <- !app_assoc. eexists _, _, _. split; [done|].
        split; [|done]. by rewrite !api_calls_app, Hnew.
      * exists (Exc OSError), (files w), []. destruct w. cbn.
        by rewrite app_nil_r.
    + rewrite bool_decide_eq_false_2 by (by intros [x Hx]).
      rewrite bind_ret. apply IH.
Qed.

Lemma delete_droplet_api_spec tok id w :
  match api_delete E with
  | HttpRaise =>
      delete_droplet_api E tok id w
      = (Exc RequestException,
         after w [Print (MsgDeleting id); HttpDelete tok id])
  | HttpResponse st _ =>
      ∃ m, delete_droplet_api E tok id w
           = (Ret (st =? 204),
              after w [Print (MsgDeleting id); HttpDelete tok id; Print m])
  end.
Proof.
  unfold delete_droplet_api. rewrite bind_print, bind_emit, after_after.
  destruct (api_delete E) as [|st body]; [done|].
  destruct (st =? 204); rewrite bind_print, after_after; by eexists.
Qed.

Lemma main_destroy_record fuel doc w l tok j id :
  preflight doc = Ok (l, tok) →
  files w !! "droplet_info.json" = Some (Doc j) →
  getitem j "id" = Ok id →
  ∃ code fs new,
    main py_str E fuel Destroy doc w = (Exit code, World fs (trace w ++ new))
    ∧ api_calls new = [HttpDelete tok id]
    ∧ (api_delete E = HttpRaise → code = 1 ∧ fs = files w).
Proof.
  intros Hpre Hfile Hid. enter_branch Hpre.
  rewrite (bind_run _ _ true w w) by
    (unfold path_exists; by rewrite Hfile, bool_decide_eq_true_2 by eauto).
  rewrite (bind_run _ _ j w w) by (unfold json_load; by rewrite Hfile).
  rewrite Hid. cbn [lift]. rewrite bind_ret.
  pose proof (delete_droplet_api_spec tok id w) as Hdel.
  destruct (api_delete E) as [|st body].
  - rewrite (bind_exc _ _ _ _ _ Hdel). cbn [after files trace].
    rewrite <- !app_assoc. eexists _, _, _. split; [done|].
    split; [done|]. by split.
  - destruct Hdel as [m Hdel]. rewrite (bind_run _ _ _ _ _ Hdel).
    edestruct clean_up_spec as (r & fs & new & -> & Hnew & Hends).
    cbn [after files trace].
    destruct r as [[]|e|]; [| |done]; rewrite <- ?app_assoc;
      eexists _, _, _; (split; [done|]);
      (split; [by rewrite !api_calls_app, Hnew|done]).
Qed.

End Driver.

(** ** The polling loop *)

Section Polling.

Variable E : env.
Variables (tok : string) (id : json).

(** One round of the loop, by what the poll response yields. *)
Lemma poll_step fuel i w :
  poll E (S fuel) i tok id w =
    match response_ips (api_get E i) with
    | Raise e => (Exc e, after w [HttpGet tok id])
    | Ok [] => poll E fuel (S i) tok id (after w [HttpGet tok id; Sleep 5])
    | Ok (ip :: _) => (Ret (id, ip), after w [HttpGet tok id])
    end.
Proof.
  cbn [poll]. rewrite bind_emit. unfold response_ips.
  destruct (api_get E i) as [|st body]; [done|].
  destruct (response_json body) as [j|e]; [|done].
  cbn [lift]. rewrite bind_ret.
  destruct (getitem j "droplet") as [d|e]; [|done].
  cbn [lift]. rewrite bind_ret.
  destruct (getitem d "networks") as [nets|e]; [|done].
  cbn [lift]. rewrite bind_ret.
  destruct (getitem nets "v4") as [networks|e]; [|done].
  cbn [lift]. rewrite bind_ret.
  destruct (public_ips networks) as [[|ip ips]|e]; [| |done].
  - cbn [lift]. by rewrite bind_ret, bind_emit, after_after.
  - cbn [lift]. by rewrite bind_ret.
Qed.

Lemma waiting_rounds_snoc n :
  waiting_rounds (S n) tok id
  = [HttpGet tok id; Sleep 5] ++ waiting_rounds n tok id.
Proof. done. Qed.

(** While the responses carry no public address the loop goes on. *)
Lemma poll_waits k : ∀ fuel i w,
  (∀ j, (j < k)%nat → response_ips (api_get E (i + j)) = Ok []) →
  poll E (k + fuel) i tok id w
  = poll E fuel (i + k) tok id (after w (waiting_rounds k tok id)).
Proof.
  induction k as [|k IH]; intros fuel i w Hwait.
  - by rewrite after_nil, Nat.add_0_r.
  - change (S k + fuel)%nat with (S (k + fuel)). rewrite poll_step.
    specialize (Hwait 0%nat ltac:(lia)) as H0. rewrite Nat.add_0_r in H0.
    rewrite H0, IH.
    + rewrite after_after, waiting_rounds_snoc. f_equal. lia.
    + intros j Hj. specialize (Hwait (S j) ltac:(lia)).
      by replace (S i + j)%nat with (i + S j)%nat by lia.
Qed.

Lemma poll_hangs fuel w :
  (∀ j, (j < fuel)%nat → response_ips (api_get E j) = Ok []) →
  poll E fuel 0 tok id w = (Hang, after w (waiting_rounds fuel tok id)).
Proof.
  intros Hwait. rewrite <- (Nat.add_0_r fuel) at 1.
  by rewrite poll_waits.
Qed.



(** A return of the loop comes from the first response that carries a
    public address. *)
Lemma poll_ret_inv fuel : ∀ i w r w',
  poll E fuel i tok id w = (Ret r, w') →
  ∃ k ip ips,
    (k < fuel)%nat
    ∧ (∀ j, (j < k)%nat → response_ips (api_get E (i + j)) = Ok [])
    ∧ response_ips (api_get E (i + k)) = Ok (ip :: ips)
    ∧ r = (id, ip).
Proof.
  induction fuel as [|fuel IH]; intros i w r w'; [done|].
  rewrite poll_step.
  destruct (response_ips (api_get E i)) as [[|ip ips]|e] eqn:Hi; [| |done].
  - intros (k & ip & ips & Hk & Hwait & Hready & ->)%IH.
    exists (S k), ip, ips. split; [lia|]. split; [|split; [|done]].
    + intros [|j] Hj; [by rewrite Nat.add_0_r|].
      replace (i + S j)%nat with (S i + j)%nat by lia. apply Hwait. lia.
    + by replace (i + S k)%nat with (S i + k)%nat by lia.
  - intros [= <- <-]. exists 0%nat, ip, ips. rewrite Nat.add_0_r.
    split; [lia|]. split; [intros j; lia|done].
Qed.


End Polling.

(** ** The apply branch *)

Section ApplyBranch.

Variable py_str : json -> string.
Variable E : env.

Lemma save_droplet_info_json_spec info w :
  ∃ ok new,
    save_droplet_info_json E info w
    = (Ret ok,
       World (if can_write E "droplet_info.json"
              then <["droplet_info.json" := Doc info]> (files w)
              else files w)
             (trace w ++ new)).
Proof.
  unfold save_droplet_info_json, json_dump, bind, print, emit, ret.
  destruct (can_write E "droplet_info.json"); cbn [files trace];
    rewrite <- ?app_assoc; by eexists _, _.
Qed.

(** Writing the state snapshot never touches the resource record. *)
Lemma save_statefile_spec info w :
  ∃ r fs new,
    save_statefile py_str E info w = (r, World fs (trace w ++ new))
    ∧ fs !! "droplet_info.json" = files w !! "droplet_info.json".
Proof.
  assert (Hstay : ∀ e : exn, ∃ (r : run bool) fs new,
            (Exc e, w) = (r, World fs (trace w ++ new))
            ∧ fs !! "droplet_info.json" = files w !! "droplet_info.json").
  { intros e. exists (Exc e), (files w), []. destruct w. cbn.
    by rewrite app_nil_r. }
  unfold save_statefile.
  destruct (getitem info "id") as [id|e]; [|apply Hstay].
  cbn [lift]. rewrite bind_ret.
  destruct (getitem info "name") as [name|e]; [|apply Hstay].
  cbn [lift]. rewrite bind_ret.
  destruct (getitem info "region") as [region|e]; [|apply Hstay].
  cbn [lift]. rewrite bind_ret.
  destruct (getitem info "size") as [size|e]; [|apply Hstay].
  cbn [lift]. rewrite bind_ret.
  destruct (getitem info "image") as [image|e]; [|apply Hstay].
  cbn [lift]. rewrite bind_ret.
  destruct (getitem info "ip") as [ip|e]; [|apply Hstay].
  cbn [lift]. rewrite bind_ret.
  unfold json_dump, bind, print, emit, ret.
  destruct (can_write E "terraform.tfstate"); cbn [files trace];
    rewrite <- ?app_assoc; eexists _, _, _; (split; [done|]).
  - by rewrite lookup_insert_ne.
  - done.
Qed.

(** What a successful [apply] run went through and left behind. *)
Lemma main_apply_success fuel doc w w1 :
  main py_str E fuel Apply doc w = (Exit 0, w1) →
  ∃ l tok id ip w' record,
    preflight doc = Ok (l, tok)
    ∧ create_droplet E fuel tok (droplet_config l) w = (Ret (id, ip), w')
    ∧ getitem record "id" = Ok id
    ∧ (can_write E "droplet_info.json" = true →
       files w1 !! "droplet_info.json" = Some (Doc record)).
Proof.
  unfold main.
  destruct (main_body py_str E fuel Apply doc w) as [[[]|e|] w''] eqn:Hb;
    intros [= <-]. revert Hb.
  unfold main_body, preflight.
  destruct (walk doc new_listener) as [l|e]; [|done].
  cbn [lift]. rewrite bind_ret.
  destruct (resolve_token l) as [tok|e]; [|done].
  cbn [lift]. rewrite bind_ret.
  case_bool_decide as Hc; [done|].
  unfold bind at 1.
  destruct (create_droplet E fuel tok (droplet_config l) w)
    as [[[id ip]|e|] w'] eqn:Hcreate; [|done|done].
  cbn [fst snd set_droplet droplet_config]. rewrite !bind_print.
  destruct (config_get (droplet_config l) "name") as [name|e]; [|done].
  cbn [lift]. rewrite bind_ret.
  destruct (config_get (droplet_config l) "region") as [region|e]; [|done].
  cbn [lift]. rewrite bind_ret.
  destruct (config_get (droplet_config l) "size") as [size|e]; [|done].
  cbn [lift]. rewrite bind_ret.
  destruct (config_get (droplet_config l) "image") as [image|e]; [|done].
  cbn [lift]. rewrite bind_ret.
  set (info := JObj _).
  edestruct (save_droplet_info_json_spec info) as (ok & new1 & Hsave).
  rewrite (bind_run _ _ _ _ _ Hsave). clear Hsave.
  edestruct (save_statefile_spec info) as (r & fs & new2 & Hstate & Hfs).
  unfold bind at 1. rewrite Hstate. clear Hstate.
  destruct r as [ok2|e|]; [|done|done].
  rewrite bind_print.
  edestruct (run_commands_quiet E) as (ok3 & new3 & Hrun & _).
  unfold run_terraform_commands.
  rewrite (bind_run _ _ _ _ _ Hrun). clear Hrun.
  intros [= <-]. exists l, tok, id, ip, w', info.
  split; [done|]. split; [done|]. split; [done|].
  intros Hcw. cbn [after files trace] in *. rewrite Hfs, Hcw.
  by rewrite lookup_insert_eq.
Qed.

End ApplyBranch.

(** ** Unsupported providers *)

Lemma walk_app pre post self :
  walk (pre ++ post) self =
    match walk pre self with
    | Ok self' => walk post self'
    | Raise e => Raise e
    end.
Proof.
  revert self. induction pre as [|b pre IH]; intros self; [done|].
  cbn [app walk]. by destruct (enter b self).
Qed.

(** The only exception a walk can end in. *)
Lemma walk_raise doc : ∀ self e,
  walk doc self = Raise e → e = UnsupportedProvider.
Proof.
  induction doc as [|b doc IH]; intros self e; [done|]. cbn [walk].
  destruct (enter b self) as [self'|e'] eqn:Hb; [by apply IH|].
  intros [= <-]. destruct b as [n body|n body|t n body]; cbn in Hb; [done| |done].
  unfold enterProvider in Hb. destruct (negb _); [by injection Hb|done].
Qed.

(** ** Properties of the lifecycle *)

(** C7. A document with a [provider] block whose name is not
    [digitalocean] ends the tree walk with the unsupported-provider error,
    whatever surrounds the block; [main] then prints that error and exits
    with code 1 in every mode, before the token is resolved and without any
    other effect. *)
Theorem unsupported_provider_is_fatal (pre post : list block)
    (name : string) (body : list keyValue) :
  PyStr.strip PyStr.dquote name ≠ "digitalocean" →
  (∀ self, enterProvider name body self = Raise UnsupportedProvider)
  ∧ (∀ self, walk (pre ++ BProvider name body :: post) self
             = Raise UnsupportedProvider)
  ∧ (∀ py_str E fuel act w,
       main py_str E fuel act (pre ++ BProvider name body :: post) w
       = (Exit 1, after w [Print (MsgError UnsupportedProvider)])).
Proof.
  intros Hname.
  assert (Henter : ∀ self, enterProvider name body self = Raise UnsupportedProvider).
  { intros self. unfold enterProvider. by apply String.eqb_neq in Hname as ->. }
  assert (Hwalk : ∀ self, walk (pre ++ BProvider name body :: post) self
                          = Raise UnsupportedProvider).
  { intros self. rewrite walk_app.
    destruct (walk pre self) as [self'|e] eqn:Hpre.
    - cbn [walk enter]. by rewrite Henter.
    - by rewrite (walk_raise _ _ _ Hpre). }
  split; [done|]. split; [done|].
  intros py_str E fuel act w. apply main_preflight_fails.
  unfold preflight. by rewrite Hwalk.
Qed.

Lemma unsupported_provider_is_fatal_witness :
  main Sample.str_of_id Sample.env_ok 5 Apply Sample.doc_other_provider
       Sample.w_empty
  = (Exit 1, after Sample.w_empty [Print (MsgError UnsupportedProvider)]).
Proof.
  assert (Hname : PyStr.strip PyStr.dquote (PyStr.quoted "aws") ≠ "digitalocean")
    by (vm_compute; discriminate).
  exact (proj2 (proj2 (unsupported_provider_is_fatal
                         [] [Sample.resource_web] (PyStr.quoted "aws")
                         [KeyValue "region" (PyStr.quoted "us-east-1")] Hname))
               Sample.str_of_id Sample.env_ok 5%nat Apply Sample.w_empty).
Defined.

Lemma main_destroy_token_only py_str E fuel doc doc' w l l' tok :
  preflight doc = Ok (l, tok) →
  preflight doc' = Ok (l', tok) →
  main py_str E fuel Destroy doc' w = main py_str E fuel Destroy doc w.
Proof.
  intros (Hw & Hr & Hc)%preflight_inv (Hw' & Hr' & Hc')%preflight_inv.
  unfold main, main_body. rewrite Hw, Hw'. cbn [lift]. rewrite !bind_ret.
  rewrite Hr, Hr'. cbn [lift]. rewrite !bind_ret.
  by rewrite !bool_decide_eq_false_2 by done.
Qed.

(** C1 (amended). In destroy mode the configuration is consulted first: a
    run whose pre-flight checks fail (unsupported provider, no token,
    undefined variable, no droplet block) prints the error and exits with
    code 1 without looking at the record file.  Once the checks pass, the
    record file alone decides: without it the run prints the cannot-destroy
    message and exits with code 0; with a record holding an [id] the run
    issues exactly one delete call, for that id with the resolved token; and
    two configurations that resolve to the same token behave alike. *)
Theorem destroy_gate_then_record (py_str : json -> string) (E : env)
    (fuel : nat) (doc : list block) (w : world) :
  (∀ e, preflight doc = Raise e →
        main py_str E fuel Destroy doc w
        = (Exit 1, after w [Print (MsgError e)]))
  ∧ (∀ l tok, preflight doc = Ok (l, tok) →
       (files w !! "droplet_info.json" = None →
        main py_str E fuel Destroy doc w
        = (Exit 0, after w [Print MsgNoDropletInfo]))
       ∧ (∀ j id,
            files w !! "droplet_info.json" = Some (Doc j) →
            getitem j "id" = Ok id →
            ∃ code fs new,
              main py_str E fuel Destroy doc w
              = (Exit code, World fs (trace w ++ new))
              ∧ api_calls new = [HttpDelete tok id])
       ∧ (∀ doc' l', preflight doc' = Ok (l', tok) →
            main py_str E fuel Destroy doc' w
            = main py_str E fuel Destroy doc w)).
Proof.
  split.
  - intros e He. by apply main_preflight_fails.
  - intros l tok Hpre. split; [|split].
    + intros Hnone. by eapply main_destroy_no_record.
    + intros j id Hfile Hid.
      destruct (main_destroy_record py_str E fuel doc w l tok j id Hpre Hfile Hid)
        as (code & fs & new & Hrun & Hcalls & _).
      by exists code, fs, new.
    + intros doc' l' Hpre'. by eapply main_destroy_token_only.
Qed.

Lemma destroy_gate_then_record_witness :
  main Sample.str_of_id Sample.env_ok 0 Destroy Sample.doc_no_resource
       Sample.w_record
  = (Exit 1, after Sample.w_record [Print (MsgError MissingResource)])
  ∧ main Sample.str_of_id Sample.env_ok 0 Destroy Sample.doc_full
         Sample.w_empty
    = (Exit 0, after Sample.w_empty [Print MsgNoDropletInfo])
  ∧ ∃ code fs new,
      main Sample.str_of_id Sample.env_ok 0 Destroy Sample.doc_full
           Sample.w_record
      = (Exit code, World fs (trace Sample.w_record ++ new))
      ∧ api_calls new = [HttpDelete "secret123" (JNum 42)].
Proof.
  split; [|split].
  - apply (proj1 (destroy_gate_then_record Sample.str_of_id Sample.env_ok 0
                    Sample.doc_no_resource Sample.w_record)).
    reflexivity.
  - eapply (proj2 (destroy_gate_then_record Sample.str_of_id Sample.env_ok 0
                     Sample.doc_full Sample.w_empty)).
    + reflexivity.
    + reflexivity.
  - eapply (proj2 (destroy_gate_then_record Sample.str_of_id Sample.env_ok 0
                     Sample.doc_full Sample.w_record)).
    + reflexivity.
    + reflexivity.
    + reflexivity.
Defined.

(** C1, counterexample. With the record file in place, destroy deletes the
    droplet for the full configuration, but fails with the no-token error
    when the configuration has no provider block and with the
    missing-resource error when it has no droplet block. *)
Lemma destroy_consults_configuration :
  api_calls (trace (snd (main Sample.str_of_id Sample.env_ok 0 Destroy
                              Sample.doc_full Sample.w_record)))
  = [HttpDelete "secret123" (JNum 42)]
  ∧ main Sample.str_of_id Sample.env_ok 0 Destroy Sample.doc_no_token
         Sample.w_record
    = (Exit 1, after Sample.w_record [Print (MsgError NoToken)])
  ∧ main Sample.str_of_id Sample.env_ok 0 Destroy Sample.doc_no_resource
         Sample.w_record
    = (Exit 1, after Sample.w_record [Print (MsgError MissingResource)]).
Proof. split; [|split]; reflexivity. Qed.

(** C2 (amended). Plan mode has the same fatal preconditions as the other
    modes: the token must resolve and a droplet block must be present.  A
    configuration without a token fails with the no-token error even when
    its droplet block is there; when the pre-flight checks pass, plan exits
    with code 0 without calling the API, whatever the subprocess does. *)
Theorem plan_preconditions (py_str : json -> string) (E : env)
    (fuel : nat) (doc : list block) (w : world) :
  (∀ l, walk doc new_listener = Ok l →
        provider_token_expr l = None ∨ provider_token_expr l = Some "" →
        main py_str E fuel Plan doc w
        = (Exit 1, after w [Print (MsgError NoToken)]))
  ∧ (∀ e, preflight doc = Raise e →
          main py_str E fuel Plan doc w
          = (Exit 1, after w [Print (MsgError e)]))
  ∧ (∀ l tok, preflight doc = Ok (l, tok) →
       ∃ new, main py_str E fuel Plan doc w = (Exit 0, after w new)
              ∧ api_calls new = []).
Proof.
  split; [|split].
  - intros l Hw Hexpr. apply main_preflight_fails.
    unfold preflight. rewrite Hw.
    by rewrite (resolve_token_absent l Hexpr).
  - intros e He. by apply main_preflight_fails.
  - intros l tok Hpre. by eapply main_plan.
Qed.

Lemma plan_preconditions_witness :
  main Sample.str_of_id Sample.env_ok 0 Plan Sample.doc_no_token Sample.w_empty
  = (Exit 1, after Sample.w_empty [Print (MsgError NoToken)])
  ∧ ∃ new,
      main Sample.str_of_id Sample.env_ok 0 Plan Sample.doc_full Sample.w_empty
      = (Exit 0, after Sample.w_empty new)
      ∧ api_calls new = [].
Proof.
  split.
  - eapply (proj1 (plan_preconditions Sample.str_of_id Sample.env_ok 0
                     Sample.doc_no_token Sample.w_empty)).
    + reflexivity.
    + left. reflexivity.
  - eapply (proj2 (proj2 (plan_preconditions Sample.str_of_id Sample.env_ok 0
                            Sample.doc_full Sample.w_empty))).
    reflexivity.
Defined.

(** C2, counterexample. A plan run whose configuration holds a droplet
    block but no provider token ends with the no-token error and exit
    code 1. *)
Lemma plan_fails_without_token :
  (∃ l, walk Sample.doc_no_token new_listener = Ok l
        ∧ droplet_config l !! "name" = Some "web-1")
  ∧ main Sample.str_of_id Sample.env_ok 0 Plan Sample.doc_no_token
         Sample.w_empty
    = (Exit 1, after Sample.w_empty [Print (MsgError NoToken)]).
Proof. split; [eexists; split|]; reflexivity. Qed.

(** C3 (amended). When no resource record exists, a destroy run calls no
    API.  It prints the cannot-destroy message and exits with code 0 when
    the pre-flight checks on the configuration pass, and it prints the error
    and exits with code 1 when they fail. *)
Theorem destroy_without_record (py_str : json -> string) (E : env)
    (fuel : nat) (doc : list block) (w : world) :
  files w !! "droplet_info.json" = None →
  (∀ l tok, preflight doc = Ok (l, tok) →
     main py_str E fuel Destroy doc w
     = (Exit 0, after w [Print MsgNoDropletInfo]))
  ∧ (∀ e, preflight doc = Raise e →
       main py_str E fuel Destroy doc w
       = (Exit 1, after w [Print (MsgError e)]))
  ∧ (∃ code new,
       main py_str E fuel Destroy doc w = (Exit code, after w new)
       ∧ api_calls new = []).
Proof.
  intros Hnone.
  assert (Hok : ∀ l tok, preflight doc = Ok (l, tok) →
            main py_str E fuel Destroy doc w
            = (Exit 0, after w [Print MsgNoDropletInfo])).
  { intros l tok Hpre. by eapply main_destroy_no_record. }
  assert (Hfail : ∀ e, preflight doc = Raise e →
            main py_str E fuel Destroy doc w
            = (Exit 1, after w [Print (MsgError e)])).
  { intros e He. by apply main_preflight_fails. }
  split; [done|]. split; [done|].
  destruct (preflight doc) as [[l tok]|e] eqn:Hpre.
  - exists 0, [Print MsgNoDropletInfo]. by rewrite (Hok l tok).
  - exists 1, [Print (MsgError e)]. by rewrite (Hfail e).
Qed.

Lemma destroy_without_record_witness :
  main Sample.str_of_id Sample.env_ok 0 Destroy Sample.doc_full Sample.w_empty
  = (Exit 0, after Sample.w_empty [Print MsgNoDropletInfo]).
Proof.
  assert (Hnone : files Sample.w_empty !! "droplet_info.json" = None)
    by reflexivity.
  eapply (proj1 (destroy_without_record Sample.str_of_id Sample.env_ok 0
                   Sample.doc_full Sample.w_empty Hnone)).
  reflexivity.
Defined.

(** C3, counterexample. With no resource record and a configuration that
    has no token, a destroy run exits with code 1. *)
Lemma destroy_without_record_can_fail :
  files Sample.w_empty !! "droplet_info.json" = None
  ∧ main Sample.str_of_id Sample.env_ok 0 Destroy Sample.doc_no_token
         Sample.w_empty
    = (Exit 1, after Sample.w_empty [Print (MsgError NoToken)]).
Proof. split; reflexivity. Qed.

(** C9. After an apply run that succeeded and wrote the resource record,
    the record holds under [id] the id the create step returned, and a
    destroy run started in the resulting directory, with any configuration
    that passes the pre-flight checks, issues exactly one API call: the
    delete of that same id. *)
Theorem apply_destroy_round_trip (py_str : json -> string) (E : env)
    (fuel : nat) (doc : list block) (w w1 : world) :
  main py_str E fuel Apply doc w = (Exit 0, w1) →
  can_write E "droplet_info.json" = true →
  ∃ record id,
    files w1 !! "droplet_info.json" = Some (Doc record)
    ∧ getitem record "id" = Ok id
    ∧ (∃ l tok ip w',
         preflight doc = Ok (l, tok)
         ∧ create_droplet E fuel tok (droplet_config l) w = (Ret (id, ip), w'))
    ∧ (∀ py_str' E' fuel' doc' l' tok',
         preflight doc' = Ok (l', tok') →
         ∃ code fs new,
           main py_str' E' fuel' Destroy doc' w1
           = (Exit code, World fs (trace w1 ++ new))
           ∧ api_calls new = [HttpDelete tok' id]).
Proof.
  intros Happly Hcw.
  destruct (main_apply_success py_str E fuel doc w w1 Happly)
    as (l & tok & id & ip & w' & record & Hpre & Hcreate & Hid & Hfile).
  specialize (Hfile Hcw). exists record, id.
  split; [done|]. split; [done|]. split; [by exists l, tok, ip, w'|].
  intros py_str' E' fuel' doc' l' tok' Hpre'.
  destruct (main_destroy_record py_str' E' fuel' doc' w1 l' tok' record id
              Hpre' Hfile Hid) as (code & fs & new & Hrun & Hcalls & _).
  by exists code, fs, new.
Qed.

Lemma apply_destroy_round_trip_witness :
  ∃ record id,
    files (snd (main Sample.str_of_id Sample.env_ok 5 Apply Sample.doc_full
                     Sample.w_empty)) !! "droplet_info.json"
    = Some (Doc record)
    ∧ getitem record "id" = Ok id.
Proof.
  destruct (apply_destroy_round_trip Sample.str_of_id Sample.env_ok 5
              Sample.doc_full Sample.w_empty
              (snd (main Sample.str_of_id Sample.env_ok 5 Apply Sample.doc_full
                         Sample.w_empty)))
    as (record & id & Hfile & Hid & _).
  - vm_compute. reflexivity.
  - reflexivity.
  - exists record, id. split; assumption.
Defined.

(** ** More on extraction *)

Lemma enterProvider_last name body self self' :
  enterProvider name body self = Ok self' →
  self' = match last_raw "token" body with
          | Some e => set_token_expr e self
          | None => self
          end.
Proof.
  unfold enterProvider. destruct (negb _); [done|]. intros [= <-].
  revert self. induction body as [|kv body IH]; intros self; [done|].
  cbn [foldl last_raw]. rewrite IH.
  destruct (last_raw "token" body) as [e|];
    by destruct (String.eqb (kv_key kv) "token").
Qed.

Lemma enterVariable_keeps name body self :
  provider_token_expr (enterVariable name body self) = provider_token_expr self
  ∧ droplet_config (enterVariable name body self) = droplet_config self.
Proof.
  rewrite enterVariable_last. by destruct (last_value "default" body).
Qed.

Lemma enterResource_token type_ name body self :
  provider_token_expr (enterResource type_ name body self)
  = provider_token_expr self.
Proof.
  unfold enterResource. destruct (negb _); [done|].
  revert self. induction body as [|kv body IH]; intros self; [done|].
  cbn [foldl]. by rewrite IH.
Qed.

Lemma walk_token_expr doc : ∀ self l,
  walk doc self = Ok l →
  provider_token_expr l =
    match token_expr_of doc with
    | Some e => Some e
    | None => provider_token_expr self
    end.
Proof.
  induction doc as [|b doc IH]; intros self l; cbn [walk token_expr_of].
  - by intros [= ->].
  - destruct (enter b self) as [self'|e] eqn:Hb; [|done].
    intros Hl. rewrite (IH _ _ Hl).
    destruct (token_expr_of doc) as [e|]; [done|].
    destruct b as [n body|n body|t n body]; cbn [enter] in Hb.
    + injection Hb as <-. apply enterVariable_keeps.
    + rewrite (enterProvider_last _ _ _ _ Hb).
      by destruct (last_raw "token" body).
    + injection Hb as <-. apply enterResource_token.
Qed.

Lemma last_raw_app_entry key pre e post :
  Forall (fun kv => kv_key kv ≠ key) post →
  last_raw key (pre ++ KeyValue key e :: post) = Some e.
Proof.
  intros Hpost.
  assert (Hnone : last_raw key post = None).
  { induction Hpost as [|kv post Hkv _ IH]; [done|]. cbn [last_raw].
    rewrite IH. by apply String.eqb_neq in Hkv as ->. }
  induction pre as [|kv pre IH]; cbn [app last_raw].
  - rewrite Hnone. cbn [kv_key kv_expr]. by rewrite String.eqb_refl.
  - by rewrite IH.
Qed.

(** X1. After a walk the stored token expression is the text, exactly as
    written, of the [token] entry that comes last over all [provider]
    blocks; a document with no such entry leaves it unset.  In particular a
    later [provider] block with a [token] entry silently replaces the
    expression of an earlier one. *)
Theorem provider_token_last_write_wins :
  (∀ doc l, walk doc new_listener = Ok l →
            provider_token_expr l = token_expr_of doc)
  ∧ (∀ doc name pre e post l,
       Forall (fun kv => kv_key kv ≠ "token") post →
       walk (doc ++ [BProvider name (pre ++ KeyValue "token" e :: post)])
            new_listener = Ok l →
       provider_token_expr l = Some e).
Proof.
  split.
  - intros doc l Hl. rewrite (walk_token_expr _ _ _ Hl).
    by destruct (token_expr_of doc).
  - intros doc name pre e post l Hpost Hl.
    rewrite (walk_token_expr _ _ _ Hl).
    assert (Hlast : token_expr_of
              (doc ++ [BProvider name (pre ++ KeyValue "token" e :: post)])
            = Some e).
    { clear Hl. induction doc as [|b doc IH]; cbn [app token_expr_of].
      - by apply last_raw_app_entry.
      - by rewrite IH. }
    by rewrite Hlast.
Qed.

Lemma provider_token_last_write_wins_witness :
  ∃ l,
    walk [Sample.provider_do;
          BProvider (PyStr.quoted "digitalocean")
            [KeyValue "token" (PyStr.quoted "abc")]] new_listener = Ok l
    ∧ provider_token_expr l = Some (PyStr.quoted "abc").
Proof.
  eexists. split; [reflexivity|].
  apply (proj2 provider_token_last_write_wins
           [Sample.provider_do] (PyStr.quoted "digitalocean") []
           (PyStr.quoted "abc") []).
  - apply Forall_nil_2.
  - reflexivity.
Defined.

(** X2. The walk of a document succeeds exactly when every [provider] block
    in it names [digitalocean]; otherwise it ends with the
    unsupported-provider error, the only error a walk can end with. *)
Theorem walk_succeeds_iff_supported (doc : list block) (self : listener) :
  (forallb supported doc = true → ∃ l, walk doc self = Ok l)
  ∧ (forallb supported doc = false →
     walk doc self = Raise UnsupportedProvider)
  ∧ (∀ e, walk doc self = Raise e → e = UnsupportedProvider).
Proof.
  split; [|split].
  - revert self. induction doc as [|b doc IH]; intros self; cbn [forallb walk].
    + by eexists.
    + intros [Hb Hdoc]%andb_true_iff.
      destruct b as [n body|n body|t n body]; cbn [enter]; [by apply IH| |by apply IH].
      unfold enterProvider. cbn [supported] in Hb. rewrite Hb. cbn [negb].
      by apply IH.
  - revert self. induction doc as [|b doc IH]; intros self; cbn [forallb walk];
      [done|].
    destruct (supported b) eqn:Hb; cbn [andb].
    + intros Hdoc. destruct (enter b self) as [self'|e] eqn:He.
      * by apply IH.
      * destruct b as [n body|n body|t n body]; cbn [enter] in He; [done| |done].
        unfold enterProvider in He. cbn [supported] in Hb.
        by rewrite Hb in He.
    + intros _. destruct b as [n body|n body|t n body]; [done| |done].
      cbn [enter]. unfold enterProvider. cbn [supported] in Hb. by rewrite Hb.
  - intros e. apply walk_raise.
Qed.

Lemma walk_succeeds_iff_supported_witness :
  (∃ l, walk Sample.doc_full new_listener = Ok l)
  ∧ walk Sample.doc_other_provider new_listener = Raise UnsupportedProvider.
Proof.
  split.
  - apply (proj1 (walk_succeeds_iff_supported Sample.doc_full new_listener)).
    reflexivity.
  - apply (proj1 (proj2 (walk_succeeds_iff_supported
                           Sample.doc_other_provider new_listener))).
    reflexivity.
Defined.

Lemma enterProvider_config name body self self' :
  enterProvider name body self = Ok self' →
  droplet_config self' = droplet_config self.
Proof.
  intros ->%enterProvider_last. by destruct (last_raw "token" body).
Qed.

Lemma enterResource_other type_ name body self :
  PyStr.strip PyStr.dquote type_ ≠ "digitalocean_droplet" →
  enterResource type_ name body self = self.
Proof.
  intros Ht. unfold enterResource. by apply String.eqb_neq in Ht as ->.
Qed.

Lemma walk_config doc : ∀ self l key,
  walk doc self = Ok l →
  droplet_config l !! key =
    match config_table doc key with
    | Some v => Some v
    | None => droplet_config self !! key
    end.
Proof.
  induction doc as [|b doc IH]; intros self l key; cbn [walk config_table].
  - by intros [= ->].
  - destruct (enter b self) as [self'|e] eqn:Hb; [|done].
    intros Hl. rewrite (IH _ _ key Hl).
    destruct (config_table doc key) as [v|]; [done|].
    destruct b as [n body|n body|t n body]; cbn [enter] in Hb.
    + injection Hb as <-. by rewrite (proj2 (enterVariable_keeps _ _ _)).
    + by rewrite (enterProvider_config _ _ _ _ Hb).
    + injection Hb as <-.
      destruct (String.eqb_spec (PyStr.strip PyStr.dquote t)
                                "digitalocean_droplet") as [Ht|Ht].
      * by rewrite enterResource_config.
      * by rewrite enterResource_other.
Qed.

(** X3. After a walk the droplet configuration binds each key to the
    quote-stripped value written last for it over all [resource] blocks of
    type [digitalocean_droplet]: several such blocks are merged into one
    configuration, a later block overriding the keys it repeats and keeping
    the others. *)
Theorem droplet_blocks_merge :
  (∀ doc l key, walk doc new_listener = Ok l →
                droplet_config l !! key = config_table doc key)
  ∧ (∀ doc t n body l l' key,
       PyStr.strip PyStr.dquote t = "digitalocean_droplet" →
       walk doc new_listener = Ok l →
       walk (doc ++ [BResource t n body]) new_listener = Ok l' →
       droplet_config l' !! key =
         match last_value key body with
         | Some v => Some v
         | None => droplet_config l !! key
         end).
Proof.
  split.
  - intros doc l key Hl. rewrite (walk_config _ _ _ key Hl).
    cbn. rewrite lookup_empty. by destruct (config_table doc key).
  - intros doc t n body l l' key Ht Hl. rewrite walk_app, Hl. cbn [walk enter].
    intros [= <-]. by apply enterResource_config.
Qed.

Lemma droplet_blocks_merge_witness :
  ∃ l,
    walk [Sample.resource_web;
          BResource (PyStr.quoted "digitalocean_droplet") (PyStr.quoted "db")
            [KeyValue "size" (PyStr.quoted "s-2vcpu-2gb")]] new_listener = Ok l
    ∧ droplet_config l !! "size" = Some "s-2vcpu-2gb"
    ∧ droplet_config l !! "name" = Some "web-1".
Proof.
  eexists. split; [reflexivity|]. split.
  - rewrite (proj2 droplet_blocks_merge [Sample.resource_web]
               (PyStr.quoted "digitalocean_droplet") (PyStr.quoted "db")
               [KeyValue "size" (PyStr.quoted "s-2vcpu-2gb")]
               _ _ "size" eq_refl eq_refl eq_refl).
    reflexivity.
  - rewrite (proj2 droplet_blocks_merge [Sample.resource_web]
               (PyStr.quoted "digitalocean_droplet") (PyStr.quoted "db")
               [KeyValue "size" (PyStr.quoted "s-2vcpu-2gb")]
               _ _ "name" eq_refl eq_refl eq_refl).
    reflexivity.
Defined.

Lemma last_value_all_none body :
  (∀ key, last_value key body = None) ↔ body = [].
Proof.
  split; [|by intros ->].
  destruct body as [|kv body]; [done|]. intros Hnone.
  specialize (Hnone (kv_key kv)). cbn [last_value] in Hnone.
  destruct (last_value (kv_key kv) body); [done|].
  by rewrite String.eqb_refl in Hnone.
Qed.

Lemma config_table_none doc :
  (∀ key, config_table doc key = None) ↔ existsb droplet_with_entries doc = false.
Proof.
  induction doc as [|b doc IH]; cbn [config_table existsb]; [done|].
  rewrite orb_false_iff, <- IH. split.
  - intros Hnone.
    assert (Hdoc : ∀ key, config_table doc key = None).
    { intros key. specialize (Hnone key).
      by destruct (config_table doc key). }
    split; [|done].
    destruct b as [n body|n body|t n body]; [done|done|].
    destruct body as [|kv body]; [done|]. cbn [droplet_with_entries].
    destruct (String.eqb (PyStr.strip PyStr.dquote t) "digitalocean_droplet");
      [|done].
    assert (Hbody : ∀ key, last_value key (kv :: body) = None).
    { intros key. specialize (Hnone key). by rewrite Hdoc in Hnone. }
    by apply last_value_all_none in Hbody.
  - intros [Hb Hdoc] key. rewrite Hdoc.
    destruct b as [n body|n body|t n body]; [done|done|].
    destruct body as [|kv body]; [by destruct (String.eqb _ _)|].
    cbn [droplet_with_entries] in Hb. by rewrite Hb.
Qed.

Lemma walk_config_empty doc l :
  walk doc new_listener = Ok l →
  droplet_config l = ∅ ↔ existsb droplet_with_entries doc = false.
Proof.
  intros Hl. rewrite <- config_table_none. split.
  - intros Hempty key.
    pose proof (walk_config _ _ _ key Hl) as Hkey.
    rewrite Hempty, lookup_empty in Hkey.
    by destruct (config_table doc key).
  - intros Hnone. apply map_eq. intros key.
    rewrite (walk_config _ _ _ key Hl), Hnone. done.
Qed.

(** X4. The droplet configuration is empty after a walk exactly when no
    [digitalocean_droplet] block of the document has an entry.  So a
    document whose only droplet blocks have an empty body fails, in every
    mode, with the missing-resource error, like a document with no droplet
    block at all, once its token has resolved. *)
Theorem empty_droplet_block_is_missing (doc : list block) (l : listener) :
  walk doc new_listener = Ok l →
  (droplet_config l = ∅ ↔ existsb droplet_with_entries doc = false)
  ∧ (∀ py_str E fuel act w tok,
       resolve_token l = Ok tok →
       existsb droplet_with_entries doc = false →
       main py_str E fuel act doc w
       = (Exit 1, after w [Print (MsgError MissingResource)])).
Proof.
  intros Hl. split; [by apply walk_config_empty|].
  intros py_str E fuel act w tok Hr Hnone.
  apply main_preflight_fails. unfold preflight. rewrite Hl, Hr.
  rewrite bool_decide_eq_true_2; [done|]. by apply (walk_config_empty doc).
Qed.

Lemma empty_droplet_block_is_missing_witness :
  main Sample.str_of_id Sample.env_ok 5 Apply
       [Sample.variable_token; Sample.provider_do;
        BResource (PyStr.quoted "digitalocean_droplet") (PyStr.quoted "web") []]
       Sample.w_empty
  = (Exit 1, after Sample.w_empty [Print (MsgError MissingResource)]).
Proof.
  eapply (proj2 (empty_droplet_block_is_missing
                   [Sample.variable_token; Sample.provider_do;
                    BResource (PyStr.quoted "digitalocean_droplet")
                      (PyStr.quoted "web") []] _ eq_refl)).
  - reflexivity.
  - reflexivity.
Defined.

(** X5. Token resolution runs after the whole walk, so a [var.<name>]
    token sees the final Symbol Table of the document: the variable may be
    declared after the [provider] block that uses it, and of several
    declarations the last one is used.  The stored default is returned as it
    is, even when it looks like a reference itself. *)
Theorem resolution_sees_whole_document (doc : list block) (l : listener)
    (rest : string) :
  walk doc new_listener = Ok l →
  token_expr_of doc = Some ("var." +:+ rest) →
  resolve_token l =
    match symbol_table doc (PyStr.before PyStr.dot rest) with
    | Some v => Ok v
    | None => Raise (UndefinedVariable (PyStr.before PyStr.dot rest))
    end.
Proof.
  intros Hl Htok.
  assert (He : provider_token_expr l = Some ("var." +:+ rest)).
  { rewrite (walk_token_expr _ _ _ Hl). by rewrite Htok. }
  rewrite (resolve_token_var _ _ He).
  rewrite (walk_variables _ _ _ (PyStr.before PyStr.dot rest) Hl).
  cbn. rewrite lookup_empty.
  by destruct (symbol_table doc (PyStr.before PyStr.dot rest)).
Qed.

Lemma resolution_sees_whole_document_witness :
  ∃ l,
    walk [Sample.provider_do; Sample.variable_token;
          BVariable (PyStr.quoted "token")
            [KeyValue "default" (PyStr.quoted "var.other")]] new_listener
    = Ok l
    ∧ resolve_token l = Ok "var.other".
Proof.
  eexists. split; [reflexivity|].
  rewrite (resolution_sees_whole_document
             [Sample.provider_do; Sample.variable_token;
              BVariable (PyStr.quoted "token")
                [KeyValue "default" (PyStr.quoted "var.other")]]
             _ "token" eq_refl eq_refl).
  reflexivity.
Defined.

Lemma append_assoc (s t u : string) : (s +:+ t) +:+ u = s +:+ t +:+ u.
Proof.
  induction s as [|a s IH]; [done|].
  change (String a ((s +:+ t) +:+ u) = String a (s +:+ t +:+ u)). by f_equal.
Qed.

Lemma repeat_snoc c n : PyStr.repeat c n +:+ String c "" = PyStr.repeat c (S n).
Proof.
  induction n as [|n IH]; [done|].
  change (String c (PyStr.repeat c n +:+ String c "")
          = String c (PyStr.repeat c (S n))).
  by f_equal.
Qed.

Lemma strip_quoted_parts a b body :
  body = "" ∨ (PyStr.first body ≠ Some PyStr.dquote
               ∧ PyStr.last body ≠ Some PyStr.dquote) →
  PyStr.strip PyStr.dquote
    (PyStr.quoted (PyStr.repeat PyStr.dquote a +:+ body
                   +:+ PyStr.repeat PyStr.dquote b))
  = body.
Proof.
  intros Hbody. unfold PyStr.quoted.
  rewrite !append_assoc, repeat_snoc.
  by apply (strip_surrounding PyStr.dquote (S a) (S b)).
Qed.

Lemma strip_quoted s :
  PyStr.strip PyStr.dquote (PyStr.quoted s) = PyStr.strip PyStr.dquote s.
Proof.
  destruct (strip_decompose PyStr.dquote s) as (a & b & Hs & Hbody).
  rewrite Hs at 1. by apply strip_quoted_parts.
Qed.

(** X6. A token written as a quoted string is always taken literally:
    whatever is between the quotes, also text of the form [var.<name>],
    [resolve_token] returns it with its outer quotes removed, without
    consulting the Symbol Table and without raising. *)
Theorem quoted_token_is_literal (self : listener) (s : string) :
  provider_token_expr self = Some (PyStr.quoted s) →
  resolve_token self = Ok (PyStr.strip PyStr.dquote s).
Proof.
  intros He. unfold resolve_token. rewrite He.
  cbn [PyStr.quoted PyStr.truthy negb PyStr.startswith].
  change (Ascii.eqb "v" PyStr.dquote) with false. cbn [andb].
  change (String PyStr.dquote (s +:+ String PyStr.dquote ""))
    with (PyStr.quoted s).
  by rewrite strip_quoted.
Qed.

Lemma quoted_token_is_literal_witness :
  resolve_token (Listener {[ "token" := "secret123" ]}
                          (Some (PyStr.quoted "var.token")) ∅ None None)
  = Ok "var.token".
Proof.
  rewrite (quoted_token_is_literal
             (Listener {[ "token" := "secret123" ]}
                       (Some (PyStr.quoted "var.token")) ∅ None None)
             "var.token" eq_refl).
  reflexivity.
Defined.

(** ** More on the create step *)

Section CreateStep.

Variable E : env.
Variables (tok : string) (config : gmap string string).

Lemma create_droplet_missing fuel w key :
  first_missing config = Some key →
  create_droplet E fuel tok config w = (Exc (KeyError key), w).
Proof.
  unfold first_missing, create_droplet, config_get. cbn [find].
  repeat (case_bool_decide as Hk;
          [intros [= <-]; by rewrite Hk
          |destruct (config !! _) as [?|]; [clear Hk|done];
           cbn [lift]; rewrite bind_ret]).
  done.
Qed.

Lemma first_missing_none :
  first_missing config = None ↔
  is_Some (config !! "name") ∧ is_Some (config !! "region")
  ∧ is_Some (config !! "size") ∧ is_Some (config !! "image").
Proof.
  unfold first_missing. cbn [find]. split.
  - case_bool_decide as H1; [done|]. case_bool_decide as H2; [done|].
    case_bool_decide as H3; [done|]. case_bool_decide as H4; [done|].
    intros _. by rewrite <- !not_eq_None_Some.
  - intros ([? ->] & [? ->] & [? ->] & [? ->]). done.
Qed.

(** The calls of the polling loop are all polls of the same droplet. *)
Lemma poll_calls id fuel : ∀ i w,
  ∃ r n new,
    poll E fuel i tok id w = (r, after w new)
    ∧ api_calls new = replicate n (HttpGet tok id)
    ∧ (n ≤ fuel)%nat.
Proof.
  induction fuel as [|fuel IH]; intros i w.
  - exists Hang, 0%nat, []. by rewrite after_nil.
  - rewrite poll_step.
    destruct (response_ips (api_get E i)) as [[|ip ips]|e].
    + destruct (IH (S i) (after w [HttpGet tok id; Sleep 5]))
        as (r & n & new & -> & Hnew & Hn).
      exists r, (S n), ([HttpGet tok id; Sleep 5] ++ new).
      rewrite after_after, api_calls_app, Hnew. split; [done|].
      split; [done|lia].
    + exists (Ret (id, ip)), 1%nat, [HttpGet tok id]. split; [done|].
      split; [done|lia].
    + exists (Exc e), 1%nat, [HttpGet tok id]. split; [done|].
      split; [done|lia].
Qed.

End CreateStep.

Section CreateCalls.

Variable E : env.
Variables (tok : string) (config : gmap string string).
Variables (name region size image : string).
Hypothesis Hname : config !! "name" = Some name.
Hypothesis Hregion : config !! "region" = Some region.
Hypothesis Hsize : config !! "size" = Some size.
Hypothesis Himage : config !! "image" = Some image.

(** With the four attributes present, the create step is one request
    followed, when its answer yields an id, by the polling loop. *)
Lemma create_droplet_steps fuel w :
  create_droplet E fuel tok config w =
    match created_id (api_post E) with
    | Raise e =>
        (Exc e, after w [Print MsgCreating;
                         HttpPost tok (create_payload name region size image)])
    | Ok id =>
        poll E fuel 0 tok id
          (after w [Print MsgCreating;
                    HttpPost tok (create_payload name region size image);
                    Print (MsgCreated id); Print MsgWaiting])
    end.
Proof.
  unfold create_droplet, config_get, created_id.
  rewrite Hname, Hregion, Hsize, Himage. cbn [lift]. rewrite !bind_ret.
  rewrite bind_print, bind_emit, after_after.
  change (JObj _) with (create_payload name region size image).
  destruct (api_post E) as [|st body]; [done|].
  destruct (raise_for_status st) as [[]|e]; [|done].
  cbn [lift]. rewrite bind_ret.
  destruct (response_json body) as [j|e]; [|done].
  cbn [lift]. rewrite bind_ret.
  destruct (getitem j "droplet") as [d|e]; [|done].
  cbn [lift]. rewrite bind_ret.
  destruct (getitem d "id") as [id|e]; [|done].
  cbn [lift]. by rewrite bind_ret, !bind_print, !after_after.
Qed.

Lemma create_droplet_calls fuel w :
  ∃ r n id new,
    create_droplet E fuel tok config w = (r, after w new)
    ∧ api_calls new
      = HttpPost tok (create_payload name region size image)
          :: replicate n (HttpGet tok id)
    ∧ (n ≤ fuel)%nat
    ∧ (∀ id' ip, r = Ret (id', ip) → created_id (api_post E) = Ok id').
Proof.
  rewrite create_droplet_steps.
  destruct (created_id (api_post E)) as [id|e].
  - edestruct (poll_calls E tok id fuel 0%nat) as (r & n & new & Hrun & Hnew & Hn).
    rewrite Hrun, after_after. exists r, n, id. eexists. split; [done|].
    rewrite api_calls_app, Hnew. split; [done|]. split; [done|].
    intros id' ip ->.
    destruct (poll_ret_inv E tok id fuel 0%nat _ _ _ Hrun)
      as (k & ip' & ips & _ & _ & _ & [= -> _]).
    done.
  - exists (Exc e), 0%nat, JNull. eexists. split; [done|].
    split; [done|]. split; [lia|]. by intros id' ip.
Qed.

End CreateCalls.

(** ** More on persistence *)

Section Persistence.

Variable py_str : json -> string.
Variable E : env.

Lemma save_statefile_unreadable droplet_info w e :
  first_unreadable droplet_info = Some e →
  save_statefile py_str E droplet_info w = (Exc e, w).
Proof.
  unfold first_unreadable, save_statefile. cbn [first_raise].
  destruct (getitem droplet_info "id") as [?|?]; [|by intros [= ->]].
  destruct (getitem droplet_info "name") as [?|?]; [|by intros [= ->]].
  destruct (getitem droplet_info "region") as [?|?]; [|by intros [= ->]].
  destruct (getitem droplet_info "size") as [?|?]; [|by intros [= ->]].
  destruct (getitem droplet_info "image") as [?|?]; [|by intros [= ->]].
  destruct (getitem droplet_info "ip") as [?|?]; [|by intros [= ->]].
  done.
Qed.

Lemma save_statefile_readable droplet_info w :
  first_unreadable droplet_info = None →
  ∃ snapshot,
    save_statefile py_str E droplet_info w
    = (if can_write E "terraform.tfstate"
       then (Ret true,
             World (<["terraform.tfstate" := Doc snapshot]> (files w))
                   (trace w ++ [FileWrite "terraform.tfstate" snapshot;
                                Print (MsgStateSaved "terraform.tfstate")]))
       else (Ret false, after w [Print MsgStateSaveFailed]))
    ∧ mirrors py_str droplet_info snapshot.
Proof.
  unfold first_unreadable, save_statefile. cbn [first_raise].
  destruct (getitem droplet_info "id") as [id|?] eqn:Hid; [|done].
  destruct (getitem droplet_info "name") as [name|?] eqn:Hname; [|done].
  destruct (getitem droplet_info "region") as [region|?] eqn:Hregion; [|done].
  destruct (getitem droplet_info "size") as [size|?] eqn:Hsize; [|done].
  destruct (getitem droplet_info "image") as [image|?] eqn:Himage; [|done].
  destruct (getitem droplet_info "ip") as [ip|?] eqn:Hip; [|done].
  intros _. cbn [lift]. rewrite !bind_ret.
  eexists. split.
  - unfold json_dump, bind, print, emit, ret, after.
    destruct (can_write E "terraform.tfstate"); cbn [files trace];
      by rewrite <- ?app_assoc.
  - eexists. split; [reflexivity|]. unfold get_default.
    split; [intros id0 Hid0; rewrite Hid in Hid0; by injection Hid0 as <-|].
    rewrite Hname, Hregion, Hsize, Himage, Hip. repeat split; reflexivity.
Qed.

Lemma save_droplet_info_json_run droplet_info w :
  save_droplet_info_json E droplet_info w
  = (if can_write E "droplet_info.json"
     then (Ret true,
           World (<["droplet_info.json" := Doc droplet_info]> (files w))
                 (trace w ++ [FileWrite "droplet_info.json" droplet_info;
                              Print (MsgInfoSaved "droplet_info.json")]))
     else (Ret false, after w [Print MsgInfoSaveFailed])).
Proof.
  unfold save_droplet_info_json, json_dump, bind, print, emit, ret, after.
  destruct (can_write E "droplet_info.json"); cbn [files trace];
    by rewrite <- ?app_assoc.
Qed.

End Persistence.

(** ** More on the apply branch *)

Section ApplyLife.

Variable py_str : json -> string.
Variable E : env.

Lemma persist_steps record w :
  first_unreadable record = None →
  ∃ snapshot new,
    (save_droplet_info_json E record ;;
     save_statefile py_str E record ;;
     print MsgEcosystem ;;
     run_terraform_commands E ;;
     ret tt) w
    = (Ret tt, World (persisted E record snapshot (files w)) (trace w ++ new))
    ∧ mirrors py_str record snapshot
    ∧ api_calls new = [].
Proof.
  intros Hrec. unfold bind at 1. rewrite save_droplet_info_json_run.
  set (w1 := if can_write E "droplet_info.json" then _ else _).
  assert (Hw1 : ∃ ok new1,
            w1 = (Ret ok,
                  World (if can_write E "droplet_info.json"
                         then <["droplet_info.json" := Doc record]> (files w)
                         else files w) (trace w ++ new1))
            ∧ api_calls new1 = []).
  { subst w1. destruct (can_write E "droplet_info.json"); by eexists _, _. }
  destruct Hw1 as (ok1 & new1 & -> & Hnew1).
  unfold bind at 1.
  edestruct (save_statefile_readable py_str E record) as (snapshot & -> & Hmirror);
    [done|].
  exists snapshot.
  set (w2 := if can_write E "terraform.tfstate" then _ else _).
  assert (Hw2 : ∃ ok new2,
            w2 = (Ret ok,
                  World (persisted E record snapshot (files w))
                        (trace w ++ new1 ++ new2))
            ∧ api_calls new2 = []).
  { subst w2. unfold persisted, after.
    destruct (can_write E "terraform.tfstate"); cbn [files trace];
      rewrite <- app_assoc; by eexists _, _. }
  destruct Hw2 as (ok2 & new2 & -> & Hnew2).
  rewrite bind_print.
  assert (Hq : quiet (run_terraform_commands E ;; ret tt)).
  { apply quiet_bind; [apply run_commands_quiet|intros _; apply quiet_ret]. }
  edestruct Hq as ([] & new3 & -> & Hnew3).
  unfold after. cbn [files trace]. rewrite <- !app_assoc.
  eexists. split; [done|]. split; [done|].
  by rewrite !api_calls_app, Hnew1, Hnew2, Hnew3.
Qed.

Lemma main_apply_not_created fuel doc w l tok r w' :
  preflight doc = Ok (l, tok) →
  create_droplet E fuel tok (droplet_config l) w = (r, w') →
  (∀ e, r = Exc e →
        main py_str E fuel Apply doc w = (Exit 1, after w' [Print (MsgError e)]))
  ∧ (r = Hang → main py_str E fuel Apply doc w = (StillPolling, w')).
Proof.
  intros (Hw & Hr & Hc)%preflight_inv Hcreate.
  split; [intros e Hexc|intros Hhang]; subst r;
    unfold main, main_body; rewrite Hw; cbn [lift]; rewrite bind_ret, Hr;
    cbn [lift]; rewrite bind_ret, bool_decide_eq_false_2 by done;
    unfold bind at 1; by rewrite Hcreate.
Qed.

Lemma main_apply_created fuel doc w l tok id ip w' name region size image :
  preflight doc = Ok (l, tok) →
  droplet_config l !! "name" = Some name →
  droplet_config l !! "region" = Some region →
  droplet_config l !! "size" = Some size →
  droplet_config l !! "image" = Some image →
  create_droplet E fuel tok (droplet_config l) w = (Ret (id, ip), w') →
  ∃ snapshot new,
    main py_str E fuel Apply doc w
    = (Exit 0,
       World (persisted E
                (resource_record id ip name region size image (strftime E))
                snapshot (files w'))
             (trace w' ++ new))
    ∧ mirrors py_str
        (resource_record id ip name region size image (strftime E)) snapshot
    ∧ api_calls new = [].
Proof.
  intros (Hw & Hr & Hc)%preflight_inv Hname Hregion Hsize Himage Hcreate.
  unfold main, main_body. rewrite Hw. cbn [lift]. rewrite bind_ret, Hr.
  cbn [lift]. rewrite bind_ret, bool_decide_eq_false_2 by done.
  unfold bind at 1. rewrite Hcreate.
  cbn [fst snd set_droplet droplet_config]. rewrite !bind_print.
  unfold config_get. rewrite Hname, Hregion, Hsize, Himage.
  cbn [lift]. rewrite !bind_ret.
  change (JObj _)
    with (resource_record id ip name region size image (strftime E)).
  edestruct (persist_steps
               (resource_record id ip name region size image (strftime E)))
    as (snapshot & new & -> & Hmirror & Hnew); [done|].
  rewrite !after_after. cbn [after files trace]. rewrite <- !app_assoc.
  exists snapshot. eexists. split; [done|]. split; [done|].
  by rewrite !api_calls_app, Hnew.
Qed.

End ApplyLife.

(** ** The polling loop within apply *)




(** ** More on the destroy branch *)

Section DestroyLife.

Variable py_str : json -> string.
Variable E : env.

Lemma delete_droplet_api_run tok id w :
  delete_droplet_api E tok id w =
    match api_delete E with
    | HttpRaise =>
        (Exc RequestException,
         after w [Print (MsgDeleting id); HttpDelete tok id])
    | HttpResponse st _ =>
        (Ret (st =? 204),
         after w [Print (MsgDeleting id); HttpDelete tok id;
                  Print (if st =? 204 then MsgDeleted id
                         else MsgDeleteFailed id st)])
    end.
Proof.
  unfold delete_droplet_api. rewrite bind_print, bind_emit, after_after.
  destruct (api_delete E) as [|st body]; [done|].
  destruct (st =? 204); by rewrite bind_print, after_after.
Qed.

Lemma clean_up_run w c :
  files w !! "droplet_info.json" = Some c →
  clean_up E ["droplet_info.json"; "terraform.tfstate"] w =
    if can_remove E "droplet_info.json" then
      if bool_decide (is_Some (files w !! "terraform.tfstate")) then
        if can_remove E "terraform.tfstate" then
          (Ret tt,
           World (delete "terraform.tfstate"
                    (delete "droplet_info.json" (files w)))
                 (trace w ++ [FileRemove "droplet_info.json";
                              Print (MsgCleaned "droplet_info.json");
                              FileRemove "terraform.tfstate";
                              Print (MsgCleaned "terraform.tfstate")]))
        else
          (Exc OSError,
           World (delete "droplet_info.json" (files w))
                 (trace w ++ [FileRemove "droplet_info.json";
                              Print (MsgCleaned "droplet_info.json")]))
      else
        (Ret tt,
         World (delete "droplet_info.json" (files w))
               (trace w ++ [FileRemove "droplet_info.json";
                            Print (MsgCleaned "droplet_info.json")]))
    else (Exc OSError, w).
Proof.
  intros Hfile. cbn [clean_up].
  unfold bind, path_exists, remove, print, emit, ret. cbn [files trace].
  rewrite Hfile. rewrite (bool_decide_eq_true_2 (is_Some (Some c))) by eauto.
  destruct (can_remove E "droplet_info.json"); [|done].
  cbn [files trace]. rewrite lookup_delete_ne by done.
  case_bool_decide as Htf; cbn [files trace].
  - destruct (can_remove E "terraform.tfstate"); cbn [files trace];
      by rewrite <- ?app_assoc.
  - by rewrite <- !app_assoc.
Qed.

Lemma main_destroy_run fuel doc w l tok j id :
  preflight doc = Ok (l, tok) →
  files w !! "droplet_info.json" = Some (Doc j) →
  getitem j "id" = Ok id →
  main py_str E fuel Destroy doc w =
    match api_delete E with
    | HttpRaise =>
        (Exit 1, after w [Print (MsgDeleting id); HttpDelete tok id;
                          Print (MsgError RequestException)])
    | HttpResponse st _ =>
        let report :=
          [Print (MsgDeleting id); HttpDelete tok id;
           Print (if st =? 204 then MsgDeleted id
                  else MsgDeleteFailed id st)] in
        if can_remove E "droplet_info.json" then
          if bool_decide (is_Some (files w !! "terraform.tfstate")) then
            if can_remove E "terraform.tfstate" then
              (Exit 0,
               World (delete "terraform.tfstate"
                        (delete "droplet_info.json" (files w)))
                     (trace w ++ report
                      ++ [FileRemove "droplet_info.json";
                          Print (MsgCleaned "droplet_info.json");
                          FileRemove "terraform.tfstate";
                          Print (MsgCleaned "terraform.tfstate")]))
            else
              (Exit 1,
               World (delete "droplet_info.json" (files w))
                     (trace w ++ report
                      ++ [FileRemove "droplet_info.json";
                          Print (MsgCleaned "droplet_info.json");
                          Print (MsgError OSError)]))
          else
            (Exit 0,
             World (delete "droplet_info.json" (files w))
                   (trace w ++ report
                    ++ [FileRemove "droplet_info.json";
                        Print (MsgCleaned "droplet_info.json")]))
        else (Exit 1, after w (report ++ [Print (MsgError OSError)]))
    end.
Proof.
  intros (Hw & Hr & Hc)%preflight_inv Hfile Hid.
  unfold main, main_body. rewrite Hw. cbn [lift]. rewrite bind_ret, Hr.
  cbn [lift]. rewrite bind_ret, bool_decide_eq_false_2 by done.
  rewrite (bind_run _ _ true w w) by
    (unfold path_exists; by rewrite Hfile, bool_decide_eq_true_2 by eauto).
  rewrite (bind_run _ _ j w w) by (unfold json_load; by rewrite Hfile).
  rewrite Hid. cbn [lift]. rewrite bind_ret.
  unfold bind at 1. rewrite delete_droplet_api_run.
  destruct (api_delete E) as [|st body].
  - unfold after. cbn [files trace]. by rewrite <- !app_assoc.
  - rewrite (clean_up_run _ (Doc j)) by done. cbn zeta.
    cbn [after files trace].
    destruct (can_remove E "droplet_info.json").
    + case_bool_decide as Htf.
      * destruct (can_remove E "terraform.tfstate");
          cbn [after files trace]; by rewrite <- !app_assoc.
      * cbn [after files trace]. by rewrite <- !app_assoc.
    + unfold after. cbn [files trace]. by rewrite <- !app_assoc.
Qed.

Lemma main_destroy_unreadable fuel doc w l tok :
  preflight doc = Ok (l, tok) →
  (files w !! "droplet_info.json" = Some Garbage →
   main py_str E fuel Destroy doc w
   = (Exit 1, after w [Print (MsgError JSONDecodeError)]))
  ∧ (∀ j e, files w !! "droplet_info.json" = Some (Doc j) →
            getitem j "id" = Raise e →
            main py_str E fuel Destroy doc w
            = (Exit 1, after w [Print (MsgError e)])).
Proof.
  intros (Hw & Hr & Hc)%preflight_inv.
  split; [intros Hfile|intros j e Hfile Hid];
    unfold main, main_body; rewrite Hw; cbn [lift]; rewrite bind_ret, Hr;
    cbn [lift]; rewrite bind_ret, bool_decide_eq_false_2 by done;
    rewrite (bind_run _ _ true w w) by
      (unfold path_exists; by rewrite Hfile, bool_decide_eq_true_2 by eauto).
  - unfold bind at 1. unfold json_load. by rewrite Hfile.
  - rewrite (bind_run _ _ j w w) by (unfold json_load; by rewrite Hfile).
    by rewrite Hid.
Qed.

End DestroyLife.

(** ** The subprocess step *)

(** X7. The subprocess step runs [terraform init] and, only when that
    completed with return code 0, [terraform plan].  It never raises: it
    returns [True] exactly when both completed with return code 0 and
    [False] otherwise, and it calls no API and touches no file. *)
Theorem terraform_commands_stop_at_first_failure (E : env) (w : world) :
  ∃ new,
    run_terraform_commands E w
    = (Ret (succeeded (subprocess_run E ["terraform"; "init"])
            && succeeded (subprocess_run E ["terraform"; "plan"])),
       after w new)
    ∧ api_calls new = []
    ∧ List.filter is_subprocess new
      = if succeeded (subprocess_run E ["terraform"; "init"])
        then [Subprocess ["terraform"; "init"];
              Subprocess ["terraform"; "plan"]]
        else [Subprocess ["terraform"; "init"]].
Proof.
  unfold run_terraform_commands, after. cbn [run_commands nth].
  destruct (subprocess_run E ["terraform"; "init"]) as [|rc1 out1 err1];
    cbn [succeeded andb];
    [|destruct (rc1 =? 0);
      [destruct (PyStr.truthy out1);
       (destruct (subprocess_run E ["terraform"; "plan"]) as [|rc2 out2 err2];
        cbn [succeeded andb];
        [|destruct (rc2 =? 0); [destruct (PyStr.truthy out2)|]])|]];
    unfold bind, print, emit, ret; cbn [files trace];
    rewrite <- ?app_assoc; eexists; (split; [reflexivity|]);
    split; reflexivity.
Qed.


(** ** Properties of the create step and of apply *)

(** X8. [create_droplet] reads [name], [region], [size] and [image] from
    the configuration before it does anything else: when one is missing it
    raises [KeyError] for the first missing one with nothing printed and no
    request sent, and an apply run ends with exit code 1 and no API call.
    Plan does not read the attributes and still exits with code 0. *)
Theorem apply_needs_four_attributes (py_str : json -> string) (E : env)
    (fuel : nat) (doc : list block) (w : world) (l : listener)
    (tok key : string) :
  preflight doc = Ok (l, tok) →
  first_missing (droplet_config l) = Some key →
  create_droplet E fuel tok (droplet_config l) w = (Exc (KeyError key), w)
  ∧ main py_str E fuel Apply doc w
    = (Exit 1, after w [Print (MsgError (KeyError key))])
  ∧ fst (main py_str E fuel Plan doc w) = Exit 0.
Proof.
  intros Hpre Hmiss.
  pose proof (create_droplet_missing E tok _ fuel w key Hmiss) as Hcreate.
  split; [done|]. split.
  - by apply (proj1 (main_apply_not_created py_str E fuel doc w l tok _ _
                       Hpre Hcreate)).
  - destruct (main_plan py_str E fuel doc w l tok Hpre) as (new & -> & _).
    done.
Qed.

Lemma apply_needs_four_attributes_witness :
  main Sample.str_of_id Sample.env_ok 5 Apply Cases.doc_incomplete
       Sample.w_empty
  = (Exit 1, after Sample.w_empty [Print (MsgError (KeyError "region"))]).
Proof.
  eapply (proj1 (proj2 (apply_needs_four_attributes
                          Sample.str_of_id Sample.env_ok 5
                          Cases.doc_incomplete Sample.w_empty _ _ "region"
                          eq_refl eq_refl))).
Defined.

(** X9. With the four attributes present, the create step leaves the
    files alone and its API calls are exactly one create request, carrying
    the resolved token and a body with the four attributes and the fixed
    defaults, followed by polls, at most as many as loop rounds were run,
    all for one and the same droplet.  When the step returns, the id it
    returns is the one read from the answer to the create request. *)
Theorem create_step_calls (E : env) (fuel : nat) (tok : string)
    (config : gmap string string) (name region size image : string)
    (w : world) :
  config !! "name" = Some name →
  config !! "region" = Some region →
  config !! "size" = Some size →
  config !! "image" = Some image →
  ∃ r n id new,
    create_droplet E fuel tok config w = (r, after w new)
    ∧ api_calls new
      = HttpPost tok (create_payload name region size image)
          :: replicate n (HttpGet tok id)
    ∧ (n ≤ fuel)%nat
    ∧ (∀ id' ip, r = Ret (id', ip) → created_id (api_post E) = Ok id').
Proof. intros. by apply create_droplet_calls. Qed.

Lemma create_step_calls_witness :
  ∃ r n id new,
    create_droplet Sample.env_ok 5 "secret123"
      {[ "name" := "web-1"; "region" := "nyc1";
         "size" := "s-1vcpu-1gb"; "image" := "ubuntu-22-04" ]}
      Sample.w_empty
    = (r, after Sample.w_empty new)
    ∧ api_calls new
      = HttpPost "secret123"
          (create_payload "web-1" "nyc1" "s-1vcpu-1gb" "ubuntu-22-04")
          :: replicate n (HttpGet "secret123" id)
    ∧ (n ≤ 5)%nat.
Proof.
  destruct (create_step_calls Sample.env_ok 5 "secret123"
              {[ "name" := "web-1"; "region" := "nyc1";
                 "size" := "s-1vcpu-1gb"; "image" := "ubuntu-22-04" ]}
              "web-1" "nyc1" "s-1vcpu-1gb" "ubuntu-22-04" Sample.w_empty)
    as (r & n & id & new & Hrun & Hcalls & Hn & _);
    [vm_compute; reflexivity..|].
  exists r, n, id, new. split; [assumption|]. split; assumption.
Defined.

Lemma created_id_rejected status_code body :
  400 ≤ status_code < 600 →
  created_id (HttpResponse status_code body) = Raise (HTTPError status_code).
Proof.
  intros [Hlo Hhi]. unfold created_id, raise_for_status.
  apply Z.leb_le in Hlo. apply Z.ltb_lt in Hhi. by rewrite Hlo, Hhi.
Qed.

(** X10. A create request that fails is never followed by a poll: when
    the request raises, when it is answered with a status from 400 to 599,
    or when the answer has no [droplet] with an [id], the create step raises
    right after that one request, and the apply run prints the error and
    exits with code 1 having written no file. *)
Theorem rejected_create_never_polls (py_str : json -> string) (E : env)
    (fuel : nat) (doc : list block) (w : world) (l : listener)
    (tok name region size image : string) (e : exn) :
  preflight doc = Ok (l, tok) →
  droplet_config l !! "name" = Some name →
  droplet_config l !! "region" = Some region →
  droplet_config l !! "size" = Some size →
  droplet_config l !! "image" = Some image →
  created_id (api_post E) = Raise e →
  main py_str E fuel Apply doc w
  = (Exit 1,
     after w [Print MsgCreating;
              HttpPost tok (create_payload name region size image);
              Print (MsgError e)])
  ∧ (api_post E = HttpRaise → e = RequestException)
  ∧ (∀ status_code body,
       api_post E = HttpResponse status_code body →
       400 ≤ status_code < 600 → e = HTTPError status_code).
Proof.
  intros Hpre Hname Hregion Hsize Himage Hanswer.
  pose proof (create_droplet_steps E tok _ name region size image
                Hname Hregion Hsize Himage fuel w) as Hcreate.
  rewrite Hanswer in Hcreate.
  split; [|split].
  - rewrite (proj1 (main_apply_not_created py_str E fuel doc w l tok _ _
                      Hpre Hcreate) e eq_refl).
    by rewrite after_after.
  - intros Hpost. rewrite Hpost in Hanswer. by injection Hanswer.
  - intros st body Hpost Hst. rewrite Hpost, created_id_rejected in Hanswer
      by done. by injection Hanswer.
Qed.

Lemma rejected_create_never_polls_witness :
  main Sample.str_of_id Cases.env_unauthorized 5 Apply Sample.doc_full
       Sample.w_empty
  = (Exit 1,
     after Sample.w_empty
       [Print MsgCreating;
        HttpPost "secret123"
          (create_payload "web-1" "nyc1" "s-1vcpu-1gb" "ubuntu-22-04");
        Print (MsgError (HTTPError 401))]).
Proof.
  eapply (proj1 (rejected_create_never_polls
                   Sample.str_of_id Cases.env_unauthorized 5 Sample.doc_full
                   Sample.w_empty _ "secret123"
                   "web-1" "nyc1" "s-1vcpu-1gb" "ubuntu-22-04"
                   (HTTPError 401)
                   eq_refl eq_refl eq_refl eq_refl eq_refl eq_refl)).
Defined.

(** X11. When the droplet was created and every poll answers with no
    public address, an apply run never gets past the polling loop: however
    long it is run, it has not exited, has written no file, and has made
    one poll, followed by a 5-second sleep, per round. *)
Theorem apply_hangs_while_pending (py_str : json -> string) (E : env)
    (doc : list block) (w : world) (l : listener)
    (tok name region size image : string) (id : json) :
  preflight doc = Ok (l, tok) →
  droplet_config l !! "name" = Some name →
  droplet_config l !! "region" = Some region →
  droplet_config l !! "size" = Some size →
  droplet_config l !! "image" = Some image →
  created_id (api_post E) = Ok id →
  (∀ i, response_ips (api_get E i) = Ok []) →
  ∀ fuel,
    main py_str E fuel Apply doc w
    = (StillPolling,
       after w ([Print MsgCreating;
                 HttpPost tok (create_payload name region size image);
                 Print (MsgCreated id); Print MsgWaiting]
                ++ waiting_rounds fuel tok id)).
Proof.
  intros Hpre Hname Hregion Hsize Himage Hanswer Hpending fuel.
  pose proof (create_droplet_steps E tok _ name region size image
                Hname Hregion Hsize Himage fuel w) as Hcreate.
  rewrite Hanswer, poll_hangs, after_after in Hcreate by done.
  by apply (proj2 (main_apply_not_created py_str E fuel doc w l tok _ _
                     Hpre Hcreate)).
Qed.

Lemma apply_hangs_while_pending_witness :
  fst (main Sample.str_of_id Cases.env_pending 1000 Apply Sample.doc_full
            Sample.w_empty)
  = StillPolling.
Proof.
  rewrite (apply_hangs_while_pending
             Sample.str_of_id Cases.env_pending Sample.doc_full
             Sample.w_empty _ "secret123"
             "web-1" "nyc1" "s-1vcpu-1gb" "ubuntu-22-04" (JNum 42)
             eq_refl eq_refl eq_refl eq_refl eq_refl eq_refl
             (fun _ => eq_refl) 1000).
  reflexivity.
Defined.

(** ** Properties of persistence *)

(** X12. [save_statefile] subscripts six fields of the record before its
    [try] block: when one of them cannot be read the exception escapes the
    function and nothing is written or printed.  When all six can be read
    it never raises: it returns whether the snapshot file could be opened,
    writes at most that one file, and the snapshot it writes mirrors the
    record, with [created_at] and [tags] defaulting to the empty string and
    the empty list. *)
Theorem statefile_mirrors_record (py_str : json -> string) (E : env)
    (droplet_info : json) (w : world) :
  (∀ e, first_unreadable droplet_info = Some e →
        save_statefile py_str E droplet_info w = (Exc e, w))
  ∧ (first_unreadable droplet_info = None →
     ∃ snapshot,
       save_statefile py_str E droplet_info w
       = (if can_write E "terraform.tfstate"
          then (Ret true,
                World (<["terraform.tfstate" := Doc snapshot]> (files w))
                      (trace w ++ [FileWrite "terraform.tfstate" snapshot;
                                   Print (MsgStateSaved "terraform.tfstate")]))
          else (Ret false, after w [Print MsgStateSaveFailed]))
       ∧ mirrors py_str droplet_info snapshot).
Proof.
  split.
  - intros e He. by apply save_statefile_unreadable.
  - intros Hnone. by apply save_statefile_readable.
Qed.

Lemma statefile_mirrors_record_witness :
  save_statefile Sample.str_of_id Sample.env_ok (JObj [("id", JNum 42)])
                 Sample.w_empty
  = (Exc (KeyError "name"), Sample.w_empty)
  ∧ ∃ snapshot,
      fst (save_statefile Sample.str_of_id Sample.env_ok
             (resource_record (JNum 42) (JStr "1.2.3.4") "web-1" "nyc1"
                "s-1vcpu-1gb" "ubuntu-22-04" "2024-01-01T00:00:00Z")
             Sample.w_empty)
      = Ret true
      ∧ mirrors Sample.str_of_id
          (resource_record (JNum 42) (JStr "1.2.3.4") "web-1" "nyc1"
             "s-1vcpu-1gb" "ubuntu-22-04" "2024-01-01T00:00:00Z")
          snapshot.
Proof.
  split.
  - apply (proj1 (statefile_mirrors_record _ _ _ _)). reflexivity.
  - destruct (proj2 (statefile_mirrors_record
                       Sample.str_of_id Sample.env_ok
                       (resource_record (JNum 42) (JStr "1.2.3.4") "web-1"
                          "nyc1" "s-1vcpu-1gb" "ubuntu-22-04"
                          "2024-01-01T00:00:00Z")
                       Sample.w_empty) eq_refl)
      as (snapshot & Hrun & Hmirror).
    exists snapshot. split; [|assumption].
    rewrite Hrun. reflexivity.
Defined.

Section ApplyOutcomes.

Variable py_str : json -> string.
Variable E : env.

(** The outcomes of an apply run, by how far it got. *)
Lemma main_apply_cases fuel doc w :
  (∃ e new, main py_str E fuel Apply doc w
            = (Exit 1, after w (new ++ [Print (MsgError e)])))
  ∨ (∃ new, main py_str E fuel Apply doc w = (StillPolling, after w new))
  ∨ (∃ l tok id ip name region size image snapshot new,
       preflight doc = Ok (l, tok)
       ∧ droplet_config l !! "name" = Some name
       ∧ droplet_config l !! "region" = Some region
       ∧ droplet_config l !! "size" = Some size
       ∧ droplet_config l !! "image" = Some image
       ∧ created_id (api_post E) = Ok id
       ∧ (∃ k ips, (k < fuel)%nat
                   ∧ response_ips (api_get E k) = Ok (ip :: ips)
                   ∧ ∀ j, (j < k)%nat → response_ips (api_get E j) = Ok [])
       ∧ main py_str E fuel Apply doc w
         = (Exit 0,
            World (persisted E
                     (resource_record id ip name region size image
                        (strftime E))
                     snapshot (files w))
                  (trace w ++ new))
       ∧ mirrors py_str
           (resource_record id ip name region size image (strftime E))
           snapshot).
Proof.
  destruct (preflight doc) as [[l tok]|e] eqn:Hpre.
  2:{ left. exists e, []. by apply main_preflight_fails. }
  destruct (first_missing (droplet_config l)) as [key|] eqn:Hmiss.
  { left. exists (KeyError key), [].
    pose proof (create_droplet_missing E tok _ fuel w key Hmiss) as Hcreate.
    by apply (proj1 (main_apply_not_created py_str E fuel doc w l tok _ _
                       Hpre Hcreate)). }
  apply first_missing_none in Hmiss
    as ([name Hname] & [region Hregion] & [size Hsize] & [image Himage]).
  destruct (create_droplet_calls E tok _ name region size image
              Hname Hregion Hsize Himage fuel w)
    as (r & n & id0 & new & Hcreate & _ & _ & Hid).
  destruct r as [[id ip]|e|].
  - right. right.
    destruct (main_apply_created py_str E fuel doc w l tok id ip _
                name region size image Hpre Hname Hregion Hsize Himage Hcreate)
      as (snapshot & new' & Hrun & Hmirror & _).
    exists l, tok, id, ip, name, region, size, image, snapshot, (new ++ new').
    do 5 (split; [done|]). split; [by eapply Hid|]. split.
    + pose proof (create_droplet_steps E tok _ name region size image
                    Hname Hregion Hsize Himage fuel w) as Hsteps.
      rewrite (Hid id ip eq_refl), Hcreate in Hsteps. symmetry in Hsteps.
      destruct (poll_ret_inv E tok id fuel 0%nat _ _ _ Hsteps)
        as (k & ip' & ips & Hk & Hwait & Hready & [= ->]).
      by exists k, ips.
    + split; [|done]. rewrite Hrun. unfold after. cbn [files trace].
      by rewrite app_assoc.
  - left. exists e, new.
    rewrite (proj1 (main_apply_not_created py_str E fuel doc w l tok _ _
                      Hpre Hcreate) e eq_refl).
    by rewrite after_after.
  - right. left. exists new.
    by apply (proj2 (main_apply_not_created py_str E fuel doc w l tok _ _
                       Hpre Hcreate)).
Qed.

End ApplyOutcomes.

(** X13. An apply run that exits with code 0 passed the pre-flight checks,
    created a droplet and polled until the first response with a public
    address.  It leaves the directory as it was except for the two files it
    tried to save: where the record file could be opened it holds the id
    and the address returned by the create step, the four attributes of the
    configuration, the time stamp and an empty tag list; where the snapshot
    file could be opened it holds a snapshot that mirrors this record. *)
Theorem apply_success_persists (py_str : json -> string) (E : env)
    (fuel : nat) (doc : list block) (w w1 : world) :
  main py_str E fuel Apply doc w = (Exit 0, w1) →
  ∃ l tok id ip name region size image snapshot,
    preflight doc = Ok (l, tok)
    ∧ droplet_config l !! "name" = Some name
    ∧ droplet_config l !! "region" = Some region
    ∧ droplet_config l !! "size" = Some size
    ∧ droplet_config l !! "image" = Some image
    ∧ created_id (api_post E) = Ok id
    ∧ (∃ k ips, (k < fuel)%nat
                ∧ response_ips (api_get E k) = Ok (ip :: ips)
                ∧ ∀ j, (j < k)%nat → response_ips (api_get E j) = Ok [])
    ∧ files w1
      = persisted E
          (resource_record id ip name region size image (strftime E))
          snapshot (files w)
    ∧ mirrors py_str
        (resource_record id ip name region size image (strftime E)) snapshot.
Proof.
  intros Hrun.
  destruct (main_apply_cases py_str E fuel doc w)
    as [(e & new & Hfail)|[(new & Hhang)|Hok]].
  - by rewrite Hfail in Hrun.
  - by rewrite Hhang in Hrun.
  - destruct Hok as (l & tok & id & ip & name & region & size & image
                     & snapshot & new & Hpre & Hname & Hregion & Hsize
                     & Himage & Hid & Hip & Hmain & Hmirror).
    rewrite Hmain in Hrun. injection Hrun as <-.
    by exists l, tok, id, ip, name, region, size, image, snapshot.
Qed.

Lemma apply_success_persists_witness :
  ∃ snapshot,
    files (snd (main Sample.str_of_id Sample.env_ok 5 Apply Sample.doc_full
                     Sample.w_empty))
    = persisted Sample.env_ok
        (resource_record (JNum 42) (JStr "1.2.3.4") "web-1" "nyc1"
           "s-1vcpu-1gb" "ubuntu-22-04" "2024-01-01T00:00:00Z")
        snapshot ∅.
Proof.
  destruct (apply_success_persists Sample.str_of_id Sample.env_ok 5
              Sample.doc_full Sample.w_empty
              (snd (main Sample.str_of_id Sample.env_ok 5 Apply
                         Sample.doc_full Sample.w_empty)))
    as (l & tok & id & ip & name & region & size & image & snapshot
        & Hpre & Hname & Hregion & Hsize & Himage & Hid & Hip & Hfiles & _).
  - vm_compute. reflexivity.
  - exists snapshot. rewrite Hfiles.
    vm_compute in Hpre. injection Hpre as <- <-.
    vm_compute in Hname, Hregion, Hsize, Himage, Hid.
    injection Hname as <-. injection Hregion as <-. injection Hsize as <-.
    injection Himage as <-. injection Hid as <-.
    destruct Hip as (k & ips & Hk & Hready & Hwait).
    destruct k as [|[|[|k]]].
    + discriminate Hready.
    + discriminate Hready.
    + vm_compute in Hready. injection Hready as <- _. reflexivity.
    + specialize (Hwait 2%nat ltac:(lia)). discriminate Hwait.
Defined.

(** X14. An apply run that does not exit with code 0, whether it fails or
    is still polling, has written and removed no file. *)
Theorem apply_failure_keeps_files (py_str : json -> string) (E : env)
    (fuel : nat) (doc : list block) (w w1 : world) (out : exit) :
  main py_str E fuel Apply doc w = (out, w1) →
  out ≠ Exit 0 →
  files w1 = files w.
Proof.
  intros Hrun Hout.
  destruct (main_apply_cases py_str E fuel doc w)
    as [(e & new & Hfail)|[(new & Hhang)|Hok]].
  - rewrite Hfail in Hrun. by injection Hrun as <- <-.
  - rewrite Hhang in Hrun. by injection Hrun as <- <-.
  - destruct Hok as (l & tok & id & ip & name & region & size & image
                     & snapshot & new & _ & _ & _ & _ & _ & _ & _ & Hmain & _).
    rewrite Hmain in Hrun. by injection Hrun as <- <-.
Qed.

Lemma apply_failure_keeps_files_witness :
  files (snd (main Sample.str_of_id Sample.env_not_found 5 Apply
                   Sample.doc_full Sample.w_record))
  = files Sample.w_record.
Proof.
  apply (apply_failure_keeps_files Sample.str_of_id Sample.env_not_found 5
           Sample.doc_full Sample.w_record _ (Exit 1)).
  - vm_compute. reflexivity.
  - discriminate.
Defined.

(** X15. A failure to open the record file or the snapshot file is not
    fatal.  Once the create step has returned, apply exits with code 0
    whether or not the files can be written; when neither can be opened the
    run leaves the directory exactly as it found it, so the droplet it
    created is recorded nowhere. *)
Theorem apply_unwritable_still_succeeds (py_str : json -> string) (E : env)
    (fuel : nat) (doc : list block) (w w' : world) (l : listener)
    (tok : string) (id ip : json) :
  preflight doc = Ok (l, tok) →
  create_droplet E fuel tok (droplet_config l) w = (Ret (id, ip), w') →
  fst (main py_str E fuel Apply doc w) = Exit 0
  ∧ (can_write E "droplet_info.json" = false →
     can_write E "terraform.tfstate" = false →
     files (snd (main py_str E fuel Apply doc w)) = files w).
Proof.
  intros Hpre Hcreate.
  destruct (first_missing (droplet_config l)) as [key|] eqn:Hmiss.
  { by rewrite (create_droplet_missing E tok _ fuel w key Hmiss) in Hcreate. }
  apply first_missing_none in Hmiss
    as ([name Hname] & [region Hregion] & [size Hsize] & [image Himage]).
  destruct (main_apply_created py_str E fuel doc w l tok id ip w'
              name region size image Hpre Hname Hregion Hsize Himage Hcreate)
    as (snapshot & new & -> & _ & _).
  split; [done|]. intros Hrec Hsnap. cbn [snd files].
  unfold persisted. rewrite Hrec, Hsnap.
  destruct (create_droplet_calls E tok _ name region size image
              Hname Hregion Hsize Himage fuel w)
    as (r & n & id0 & new0 & Hcreate' & _).
  rewrite Hcreate in Hcreate'. by injection Hcreate' as _ ->.
Qed.

Lemma apply_unwritable_still_succeeds_witness :
  fst (main Sample.str_of_id Cases.env_read_only 5 Apply Sample.doc_full
            Sample.w_record)
  = Exit 0
  ∧ files (snd (main Sample.str_of_id Cases.env_read_only 5 Apply
                     Sample.doc_full Sample.w_record))
    = files Sample.w_record.
Proof.
  destruct (apply_unwritable_still_succeeds
              Sample.str_of_id Cases.env_read_only 5 Sample.doc_full
              Sample.w_record
              (snd (create_droplet Cases.env_read_only 5 "secret123"
                      {[ "name" := "web-1"; "region" := "nyc1";
                         "size" := "s-1vcpu-1gb"; "image" := "ubuntu-22-04" ]}
                      Sample.w_record))
              (Listener {[ "token" := "secret123" ]} (Some "var.token")
                 {[ "name" := "web-1"; "region" := "nyc1";
                    "size" := "s-1vcpu-1gb"; "image" := "ubuntu-22-04" ]}
                 None None)
              "secret123" (JNum 42) (JStr "1.2.3.4"))
    as [Hexit Hfiles].
  - vm_compute. reflexivity.
  - vm_compute. reflexivity.
  - split; [exact Hexit|]. apply Hfiles; reflexivity.
Defined.

(** ** Properties of destroy *)

(** X16. A destroy run that finds a record with an id issues the delete
    request and then cleans up whatever status code the answer has,
    reporting success exactly for status 204.  When the removals succeed it
    exits with code 0, the record file and, when present, the snapshot file
    gone.  A removal that raises is fatal: when the record file cannot be
    removed the run exits with code 1 and keeps both files; when only the
    snapshot file cannot be removed it exits with code 1 with the record
    file gone and the snapshot kept.  When the request itself raises the
    run exits with code 1 and keeps both files. *)
Theorem destroy_cleans_up_after_any_response (py_str : json -> string)
    (E : env) (fuel : nat) (doc : list block) (w : world) (l : listener)
    (tok : string) (j id : json) :
  preflight doc = Ok (l, tok) →
  files w !! "droplet_info.json" = Some (Doc j) →
  getitem j "id" = Ok id →
  (∀ status_code body,
     api_delete E = HttpResponse status_code body →
     (can_remove E "droplet_info.json" = true →
      files w !! "terraform.tfstate" = None
      ∨ can_remove E "terraform.tfstate" = true →
      ∃ rest,
        main py_str E fuel Destroy doc w
        = (Exit 0,
           World (delete "terraform.tfstate"
                    (delete "droplet_info.json" (files w)))
                 (trace w ++ delete_report tok id status_code ++ rest))
        ∧ api_calls rest = [])
     ∧ (can_remove E "droplet_info.json" = false →
        main py_str E fuel Destroy doc w
        = (Exit 1,
           after w (delete_report tok id status_code
                    ++ [Print (MsgError OSError)])))
     ∧ (can_remove E "droplet_info.json" = true →
        is_Some (files w !! "terraform.tfstate") →
        can_remove E "terraform.tfstate" = false →
        ∃ rest,
          main py_str E fuel Destroy doc w
          = (Exit 1,
             World (delete "droplet_info.json" (files w))
                   (trace w ++ delete_report tok id status_code ++ rest))
          ∧ api_calls rest = []))
  ∧ (api_delete E = HttpRaise →
     main py_str E fuel Destroy doc w
     = (Exit 1, after w [Print (MsgDeleting id); HttpDelete tok id;
                         Print (MsgError RequestException)])).
Proof.
  intros Hpre Hfile Hid.
  pose proof (main_destroy_run py_str E fuel doc w l tok j id Hpre Hfile Hid)
    as Hrun.
  split; [|intros Hdel; by rewrite Hdel in Hrun].
  intros st body Hdel. rewrite Hdel in Hrun. cbn zeta in Hrun.
  fold (delete_report tok id st) in Hrun.
  split; [|split].
  - intros Hrec Hsnap. rewrite Hrec in Hrun.
    case_bool_decide as Htf.
    + destruct Hsnap as [Hnone|Hsnap]; [rewrite Hnone in Htf; by destruct Htf|].
      rewrite Hsnap in Hrun. by eexists.
    + assert (Hnone : files w !! "terraform.tfstate" = None).
      { destruct (files w !! "terraform.tfstate") eqn:Hl; [|done].
        destruct Htf. eauto. }
      rewrite (delete_id (delete _ _) "terraform.tfstate")
        by (by rewrite lookup_delete_ne).
      by eexists.
  - intros Hrec. by rewrite Hrec in Hrun.
  - intros Hrec Htf Hsnap. rewrite Hrec, Hsnap in Hrun.
    rewrite bool_decide_eq_true_2 in Hrun by done. by eexists.
Qed.

Lemma destroy_cleans_up_after_any_response_witness :
  (fst (main Sample.str_of_id Cases.env_pending 0 Destroy Sample.doc_full
             Sample.w_record)
   = Exit 0
   ∧ files (snd (main Sample.str_of_id Cases.env_pending 0 Destroy
                      Sample.doc_full Sample.w_record))
     = ∅)
  ∧ main Sample.str_of_id Cases.env_read_only 0 Destroy Sample.doc_full
         Sample.w_record
    = (Exit 1,
       after Sample.w_record
         (delete_report "secret123" (JNum 42) 204
          ++ [Print (MsgError OSError)])).
Proof.
  split.
  - destruct (proj1 (proj1 (destroy_cleans_up_after_any_response
                       Sample.str_of_id Cases.env_pending 0 Sample.doc_full
                       Sample.w_record _ "secret123"
                       (JObj [("id", JNum 42)]) (JNum 42)
                       eq_refl eq_refl eq_refl) 404 Garbage eq_refl)
                    eq_refl (or_introl eq_refl))
      as (rest & Hrun & _).
    rewrite Hrun. split; [reflexivity|]. vm_compute. reflexivity.
  - apply (proj1 (proj2 (proj1 (destroy_cleans_up_after_any_response
                     Sample.str_of_id Cases.env_read_only 0 Sample.doc_full
                     Sample.w_record _ "secret123"
                     (JObj [("id", JNum 42)]) (JNum 42)
                     eq_refl eq_refl eq_refl) 204 Garbage eq_refl))).
    reflexivity.
Defined.

(** X17. A destroy run that finds a record file it cannot use, because
    the file is not JSON or because the document has no [id], fails with
    exit code 1 without calling the API and without removing any file. *)
Theorem destroy_unreadable_record (py_str : json -> string) (E : env)
    (fuel : nat) (doc : list block) (w : world) (l : listener)
    (tok : string) :
  preflight doc = Ok (l, tok) →
  (files w !! "droplet_info.json" = Some Garbage →
   main py_str E fuel Destroy doc w
   = (Exit 1, after w [Print (MsgError JSONDecodeError)]))
  ∧ (∀ j e, files w !! "droplet_info.json" = Some (Doc j) →
            getitem j "id" = Raise e →
            main py_str E fuel Destroy doc w
            = (Exit 1, after w [Print (MsgError e)])).
Proof. intros Hpre. by eapply main_destroy_unreadable. Qed.

Lemma destroy_unreadable_record_witness :
  main Sample.str_of_id Sample.env_ok 0 Destroy Sample.doc_full
       Cases.w_garbage
  = (Exit 1, after Cases.w_garbage [Print (MsgError JSONDecodeError)]).
Proof.
  eapply (proj1 (destroy_unreadable_record
                   Sample.str_of_id Sample.env_ok 0 Sample.doc_full
                   Cases.w_garbage _ "secret123" eq_refl)).
  reflexivity.
Defined.

(** X18. Destroy is safe to repeat once it has cleaned up: after a destroy
    run whose delete request was answered and whose removals succeeded,
    neither state file exists, and any later destroy run in that directory
    calls no API, printing the cannot-destroy message and exiting with code
    0 when its pre-flight checks pass.  When the record file could not be
    removed the run exits with code 1 with the directory unchanged, and a
    later destroy run issues the delete request for the same id again. *)
Theorem destroy_twice (py_str : json -> string) (E : env)
    (fuel : nat) (doc : list block) (w : world) (l : listener)
    (tok : string) (j id : json) (status_code : Z) (body : content) :
  preflight doc = Ok (l, tok) →
  files w !! "droplet_info.json" = Some (Doc j) →
  getitem j "id" = Ok id →
  api_delete E = HttpResponse status_code body →
  (can_remove E "droplet_info.json" = true →
   files w !! "terraform.tfstate" = None
   ∨ can_remove E "terraform.tfstate" = true →
   ∃ w1,
     main py_str E fuel Destroy doc w = (Exit 0, w1)
     ∧ files w1 !! "droplet_info.json" = None
     ∧ files w1 !! "terraform.tfstate" = None
     ∧ (∀ py_str' E' fuel' doc' l' tok',
          preflight doc' = Ok (l', tok') →
          main py_str' E' fuel' Destroy doc' w1
          = (Exit 0, after w1 [Print MsgNoDropletInfo])))
  ∧ (can_remove E "droplet_info.json" = false →
     ∃ w1,
       main py_str E fuel Destroy doc w = (Exit 1, w1)
       ∧ files w1 = files w
       ∧ (∀ py_str' E' fuel' doc' l' tok',
            preflight doc' = Ok (l', tok') →
            ∃ code fs new,
              main py_str' E' fuel' Destroy doc' w1
              = (Exit code, World fs (trace w1 ++ new))
              ∧ api_calls new = [HttpDelete tok' id])).
Proof.
  intros Hpre Hfile Hid Hdel.
  pose proof (main_destroy_run py_str E fuel doc w l tok j id Hpre Hfile Hid)
    as Hrun.
  rewrite Hdel in Hrun. cbn zeta in Hrun. split.
  - intros Hrec Hsnap. rewrite Hrec in Hrun.
    assert (Hdone : ∃ new,
              main py_str E fuel Destroy doc w
              = (Exit 0,
                 World (delete "terraform.tfstate"
                          (delete "droplet_info.json" (files w)))
                       (trace w ++ new))).
    { case_bool_decide as Htf.
      - destruct Hsnap as [Hnone|Hsnap];
          [rewrite Hnone in Htf; by destruct Htf|].
        rewrite Hsnap in Hrun. by eexists.
      - assert (Hnone : files w !! "terraform.tfstate" = None).
        { destruct (files w !! "terraform.tfstate") eqn:Hl; [|done].
          destruct Htf. eauto. }
        rewrite (delete_id (delete _ _) "terraform.tfstate")
          by (by rewrite lookup_delete_ne).
        by eexists. }
    destruct Hdone as [new Hdone]. eexists. split; [exact Hdone|].
    cbn [files].
    assert (Hgone : delete "terraform.tfstate"
                      (delete "droplet_info.json" (files w))
                    !! "droplet_info.json" = None).
    { rewrite lookup_delete_ne by done. apply lookup_delete_eq. }
    split; [done|]. split; [apply lookup_delete_eq|].
    intros py_str' E' fuel' doc' l' tok' Hpre'.
    by eapply main_destroy_no_record.
  - intros Hrec. rewrite Hrec in Hrun. eexists. split; [exact Hrun|].
    split; [done|].
    intros py_str' E' fuel' doc' l' tok' Hpre'.
    destruct (main_destroy_record py_str' E' fuel' doc'
                (after w ([Print (MsgDeleting id); HttpDelete tok id;
                           Print (if status_code =? 204 then MsgDeleted id
                                  else MsgDeleteFailed id status_code)]
                          ++ [Print (MsgError OSError)]))
                l' tok' j id Hpre' Hfile Hid)
      as (code & fs & new & Hagain & Hcalls & _).
    by exists code, fs, new.
Qed.

Lemma destroy_twice_witness :
  (∃ w1,
     main Sample.str_of_id Sample.env_ok 0 Destroy Sample.doc_full
          Sample.w_record = (Exit 0, w1)
     ∧ main Sample.str_of_id Sample.env_ok 0 Destroy Sample.doc_full w1
       = (Exit 0, after w1 [Print MsgNoDropletInfo]))
  ∧ (∃ w1,
       main Sample.str_of_id Cases.env_read_only 0 Destroy Sample.doc_full
            Sample.w_record = (Exit 1, w1)
       ∧ files w1 = files Sample.w_record).
Proof.
  split.
  - destruct (proj1 (destroy_twice Sample.str_of_id Sample.env_ok 0
                       Sample.doc_full Sample.w_record _ "secret123"
                       (JObj [("id", JNum 42)]) (JNum 42) 204 Garbage
                       eq_refl eq_refl eq_refl eq_refl)
                    eq_refl (or_introl eq_refl))
      as (w1 & Hrun & _ & _ & Hagain).
    exists w1. split; [exact Hrun|].
    eapply Hagain. reflexivity.
  - destruct (proj2 (destroy_twice Sample.str_of_id Cases.env_read_only 0
                       Sample.doc_full Sample.w_record _ "secret123"
                       (JObj [("id", JNum 42)]) (JNum 42) 204 Garbage
                       eq_refl eq_refl eq_refl eq_refl)
                    eq_refl)
      as (w1 & Hrun & Hfiles & _).
    exists w1. split; [exact Hrun|exact Hfiles].
Defined.

(** X19. Apply followed by destroy restores the directory: after an apply
    run that exited with code 0 and whose record file could be written, a
    destroy run that gets an answer to its delete request and can remove the
    two state files exits with code 0 and leaves the directory as it was
    before the apply, less the two state files. *)
Theorem apply_then_destroy_restores_directory (py_str : json -> string)
    (E : env) (fuel : nat) (doc : list block) (w w1 : world) :
  main py_str E fuel Apply doc w = (Exit 0, w1) →
  can_write E "droplet_info.json" = true →
  ∀ py_str' E' fuel' doc' l' tok' status_code body,
    preflight doc' = Ok (l', tok') →
    api_delete E' = HttpResponse status_code body →
    can_remove E' "droplet_info.json" = true →
    can_remove E' "terraform.tfstate" = true →
    ∃ w2,
      main py_str' E' fuel' Destroy doc' w1 = (Exit 0, w2)
      ∧ files w2
        = delete "terraform.tfstate" (delete "droplet_info.json" (files w)).
Proof.
  intros Happly Hrec py_str' E' fuel' doc' l' tok' st body Hpre' Hdel
         Hrm_rec Hrm_snap.
  destruct (main_apply_cases py_str E fuel doc w)
    as [(e & new & Hfail)|[(new & Hhang)|Hok]].
  { by rewrite Hfail in Happly. }
  { by rewrite Hhang in Happly. }
  destruct Hok as (l & tok & id & ip & name & region & size & image
                   & snapshot & new & _ & _ & _ & _ & _ & _ & _ & Hmain & _).
  rewrite Hmain in Happly. injection Happly as <-.
  set (record := resource_record id ip name region size image (strftime E)).
  assert (Hfile : persisted E record snapshot (files w) !! "droplet_info.json"
                  = Some (Doc record)).
  { unfold persisted. rewrite Hrec.
    destruct (can_write E "terraform.tfstate").
    - rewrite lookup_insert_ne by done. apply lookup_insert_eq.
    - apply lookup_insert_eq. }
  pose proof (main_destroy_run py_str' E' fuel' doc'
                (World (persisted E record snapshot (files w)) (trace w ++ new))
                l' tok' record id Hpre' Hfile eq_refl) as Hrun.
  rewrite Hdel in Hrun. cbn zeta in Hrun. rewrite Hrm_rec, Hrm_snap in Hrun.
  cbn [files] in Hrun.
  assert (Hrestored :
            delete "terraform.tfstate"
              (delete "droplet_info.json" (persisted E record snapshot (files w)))
            = delete "terraform.tfstate"
                (delete "droplet_info.json" (files w))).
  { unfold persisted. rewrite Hrec.
    destruct (can_write E "terraform.tfstate").
    - rewrite (delete_insert_ne _ "droplet_info.json" "terraform.tfstate")
        by done.
      by rewrite delete_insert_eq, delete_insert_eq.
    - by rewrite delete_insert_eq. }
  case_bool_decide as Htf.
  - eexists. split; [exact Hrun|]. cbn [files]. exact Hrestored.
  - eexists. split; [exact Hrun|]. cbn [files]. rewrite <- Hrestored.
    symmetry. apply delete_id. rewrite lookup_delete_ne by done.
    destruct (persisted E record snapshot (files w) !! "terraform.tfstate")
      eqn:Hl; [|done].
    destruct Htf. eauto.
Qed.

Lemma apply_then_destroy_restores_directory_witness :
  ∃ w2,
    main Sample.str_of_id Sample.env_ok 0 Destroy Sample.doc_full
         (snd (main Sample.str_of_id Sample.env_ok 5 Apply Sample.doc_full
                    Sample.w_empty))
    = (Exit 0, w2)
    ∧ files w2 = delete "terraform.tfstate" (delete "droplet_info.json" ∅).
Proof.
  eapply (apply_then_destroy_restores_directory
            Sample.str_of_id Sample.env_ok 5 Sample.doc_full Sample.w_empty).
  - vm_compute. reflexivity.
  - reflexivity.
  - reflexivity.
  - reflexivity.
  - reflexivity.
  - reflexivity.
Defined.

(** ** Edge cases of a poll response *)

Lemma public_ips_of_readable items :
  Forall readable_interface items → ∃ ips, public_ips_of items = Ok ips.
Proof.
  induction 1 as [|n items (t & Ht & Hip) _ [ips IH]]; [by eexists|].
  cbn [public_ips_of]. rewrite Ht, IH.
  destruct (is_public t); [|by eexists].
  destruct Hip as [ip ->]; [done|]. by eexists.
Qed.

Lemma public_ips_of_app_raise pre n post e :
  Forall readable_interface pre →
  public_ips_of (n :: post) = Raise e →
  public_ips_of (pre ++ n :: post) = Raise e.
Proof.
  intros Hpre Hn.
  induction Hpre as [|m pre (t & Ht & Hip) _ IH]; [done|].
  cbn [app public_ips_of]. rewrite Ht, IH.
  destruct (is_public t); [|done]. by destruct Hip as [ip ->].
Qed.

(** X20. The list of public addresses is built from every entry of the
    network list before the loop looks at it, so one unreadable entry makes
    the poll raise even when other entries are public: an entry without a
    [type] gives [KeyError] for [type], a public entry without an
    [ip_address] gives [KeyError] for [ip_address], whatever comes before or
    after it in the list.  A list of readable entries never raises. *)
Theorem unreadable_interface_aborts_poll (pre post : list json)
    (members : list (string * json)) :
  Forall readable_interface pre →
  (members_lookup "type" members = None →
   public_ips (JArr (pre ++ JObj members :: post))
   = Raise (KeyError "type"))
  ∧ (members_lookup "type" members = Some (JStr "public") →
     members_lookup "ip_address" members = None →
     public_ips (JArr (pre ++ JObj members :: post))
     = Raise (KeyError "ip_address"))
  ∧ (∃ ips, public_ips (JArr pre) = Ok ips).
Proof.
  intros Hpre. cbn [public_ips iterate]. split; [|split].
  - intros Htype. apply public_ips_of_app_raise; [done|].
    cbn [public_ips_of getitem]. by rewrite Htype.
  - intros Htype Hip. apply public_ips_of_app_raise; [done|].
    cbn [public_ips_of getitem]. rewrite Htype. cbn [is_public].
    rewrite String.eqb_refl. by rewrite Hip.
  - by apply public_ips_of_readable.
Qed.

Lemma unreadable_interface_aborts_poll_witness :
  public_ips (JArr [Sample.interface "public" "1.2.3.4";
                    JObj [("type", JStr "public")];
                    Sample.interface "public" "5.6.7.8"])
  = Raise (KeyError "ip_address").
Proof.
  assert (Hpre : Forall readable_interface
                         [Sample.interface "public" "1.2.3.4"]).
  { apply Forall_cons_2; [|apply Forall_nil_2].
    exists (JStr "public"). split; [reflexivity|].
    intros _. exists (JStr "1.2.3.4"). reflexivity. }
  apply (proj1 (proj2 (unreadable_interface_aborts_poll
                         [Sample.interface "public" "1.2.3.4"]
                         [Sample.interface "public" "5.6.7.8"]
                         [("type", JStr "public")] Hpre))).
  - reflexivity.
  - reflexivity.
Defined.
